(** * VersusAI: the comparison session engine

    A shallow embedding of the logic of [services/gemini.ts], [App.tsx] and
    [components/ComparisonResults.tsx]: extraction of the comparison record
    from the model's text, grounding sources, the search history, the saved
    comparisons, the usage statistics and the persona analysis.

    JavaScript strings are modelled as [string]: one character stands for one
    code unit.  JavaScript values produced by [JSON.parse] are modelled by
    the type [json].  React state is passed explicitly; the part of an
    [async] handler before its [await] and the part after it are separate
    transitions. *)

From Stdlib Require Import ZArith List String Ascii Bool Lia.
From Stdlib Require Import DecimalString Floats Uint63.
Import ListNotations.

Local Open Scope string_scope.
Local Open Scope list_scope.
Local Open Scope Z_scope.
Set Warnings "-register-all".

(* ================================================================= *)
(** * Part I: definitions *)

(* ----------------------------------------------------------------- *)
(** ** The JavaScript primitives the code calls *)

Module JS.

(** What is thrown: the [SyntaxError] of [JSON.parse], or the reason an
    awaited request was rejected with. *)
Inductive exn : Type :=
| JSONSyntaxError
| Rejection (reason : string).

(** A function body either returns or throws. *)
Inductive completion (A : Type) : Type :=
| Returned (a : A)
| Threw (e : exn).
Arguments Returned {A} a.
Arguments Threw {A} e.

Definition dquote : ascii := "034"%char.
Definition backslash : ascii := "092"%char.

(** [s.length] *)
Definition len (s : string) : nat := String.length s.

(** *** [String.prototype.trim] *)

(** White space and line terminators among the code units below 256. *)
Definition is_trim_space (c : ascii) : bool :=
  let n := nat_of_ascii c in
  ((9 <=? n) && (n <=? 13) || (n =? 32) || (n =? 160))%nat.

Fixpoint trim_start (s : string) : string :=
  match s with
  | String c rest => if is_trim_space c then trim_start rest else s
  | EmptyString => EmptyString
  end.

(** Drops the trailing white space: a character is kept when it is not
    white space or when something is kept after it. *)
Fixpoint trim_end (s : string) : string :=
  match s with
  | String c rest =>
      match trim_end rest with
      | EmptyString => if is_trim_space c then EmptyString
                       else String c EmptyString
      | kept => String c kept
      end
  | EmptyString => EmptyString
  end.

Definition trim (s : string) : string := trim_end (trim_start s).

(** Truthiness of a string: [!s] is true exactly on the empty string. *)
Definition truthy_string (s : string) : bool :=
  match s with EmptyString => false | _ => true end.

(** *** The regular expression [/\{[\s\S]*\}/] *)

(** [[\s\S]*\}] run greedily on [s]: every character is taken, then the
    matcher backs up to the last closing brace.  The result is the longest
    prefix of [s] that ends in a closing brace. *)
Fixpoint through_last_close (s : string) : option string :=
  match s with
  | EmptyString => None
  | String c rest =>
      match through_last_close rest with
      | Some span => Some (String c span)
      | None => if (c =? "}")%char then Some (String c EmptyString)
                else None
      end
  end.

(** [text.match(/\{[\s\S]*\}/)]: start positions are tried from the left;
    the result is element 0 of the match array, or [None] for [null]. *)
Fixpoint match_braces (text : string) : option string :=
  match text with
  | EmptyString => None
  | String c rest =>
      if (c =? "{")%char then
        match through_last_close rest with
        | Some span => Some (String c span)
        | None => match_braces rest
        end
      else match_braces rest
  end.

(** *** Values of [JSON.parse] *)

(** A number literal is kept as sign, decimal mantissa and decimal
    exponent: it denotes [mant * 10 ^ exp10], and the double that
    [JSON.parse] yields is the rounding of that.  A string is the list of
    its code units (an escape [\uXXXX] can denote one above 255).  An
    object is the list of its members in source order. *)
Inductive json : Type :=
| JNull
| JBool (b : bool)
| JNumber (neg : bool) (mant : Z) (exp10 : Z)
| JString (units : list N)
| JArray (elems : list json)
| JObject (members : list (list N * json)).

Definition units (s : string) : list N :=
  map N_of_ascii (list_ascii_of_string s).

(** The double denoted by the literal is [+0] or [-0]: the mantissa is
    zero, or the value is at most [2^-1075], half of the least positive
    double, and rounds to zero. *)
Definition number_is_zero (mant exp10 : Z) : bool :=
  (mant =? 0) || ((exp10 <? 0) && (mant * 2 ^ 1075 <=? 10 ^ (- exp10))).

(** [!!v] *)
Definition truthy (v : json) : bool :=
  match v with
  | JNull => false
  | JBool b => b
  | JNumber _ m e => negb (number_is_zero m e)
  | JString u => match u with [] => false | _ => true end
  | JArray _ => true
  | JObject _ => true
  end.

(** *** [JSON.parse] *)

Inductive parsed (A : Type) : Type :=
| Ok (a : A) (rest : string)
| SyntaxError
| OutOfFuel.
Arguments Ok {A} a rest.
Arguments SyntaxError {A}.
Arguments OutOfFuel {A}.

Definition pmap {A B : Type} (f : A -> B) (p : parsed A) : parsed B :=
  match p with
  | Ok a rest => Ok (f a) rest
  | SyntaxError => SyntaxError
  | OutOfFuel => OutOfFuel
  end.

(** JSON white space: space, tab, line feed, carriage return. *)
Definition is_ws (c : ascii) : bool :=
  ((c =? " ") || (c =? "009") || (c =? "010") || (c =? "013"))%char.

Fixpoint skip_ws (s : string) : string :=
  match s with
  | String c rest => if is_ws c then skip_ws rest else s
  | EmptyString => EmptyString
  end.

Definition is_digit (c : ascii) : bool :=
  let n := nat_of_ascii c in ((48 <=? n) && (n <=? 57))%nat.

Definition digit_val (c : ascii) : Z := Z.of_nat (nat_of_ascii c) - 48.

Definition hex_val (c : ascii) : option N :=
  let n := N_of_ascii c in
  if ((48 <=? n) && (n <=? 57))%N then Some (n - 48)%N
  else if ((65 <=? n) && (n <=? 70))%N then Some (n - 55)%N
  else if ((97 <=? n) && (n <=? 102))%N then Some (n - 87)%N
  else None.

Definition hex4 (a b c d : ascii) : option N :=
  match hex_val a, hex_val b, hex_val c, hex_val d with
  | Some x, Some y, Some z, Some w =>
      Some (((x * 16 + y) * 16 + z) * 16 + w)%N
  | _, _, _, _ => None
  end.

(** The code unit of a single-character escape. *)
Definition simple_escape (c : ascii) : option N :=
  if (c =? dquote)%char then Some 34%N
  else if (c =? backslash)%char then Some 92%N
  else if (c =? "/")%char then Some 47%N
  else if (c =? "b")%char then Some 8%N
  else if (c =? "f")%char then Some 12%N
  else if (c =? "n")%char then Some 10%N
  else if (c =? "r")%char then Some 13%N
  else if (c =? "t")%char then Some 9%N
  else None.

(** The characters of a string literal after its opening quote, up to and
    including the closing quote. *)
Fixpoint string_chars (s : string) : parsed (list N) :=
  match s with
  | EmptyString => SyntaxError
  | String c rest =>
      if (c =? dquote)%char then Ok [] rest
      else if (c =? backslash)%char then
        match rest with
        | EmptyString => SyntaxError
        | String e rest1 =>
            if (e =? "u")%char then
              match rest1 with
              | String h1 (String h2 (String h3 (String h4 rest2))) =>
                  match hex4 h1 h2 h3 h4 with
                  | Some u => pmap (cons u) (string_chars rest2)
                  | None => SyntaxError
                  end
              | _ => SyntaxError
              end
            else
              match simple_escape e with
              | Some u => pmap (cons u) (string_chars rest1)
              | None => SyntaxError
              end
        end
      else if (nat_of_ascii c <? 32)%nat then SyntaxError
      else pmap (cons (N_of_ascii c)) (string_chars rest)
  end.

(** A run of digits: the number read so far, how many digits were read,
    and the rest. *)
Fixpoint digits (acc : Z) (count : Z) (s : string) : Z * Z * string :=
  match s with
  | String c rest =>
      if is_digit c then digits (acc * 10 + digit_val c) (count + 1) rest
      else (acc, count, s)
  | EmptyString => (acc, count, s)
  end.

(** [int]: a single [0], or a digit from 1 to 9 followed by digits. *)
Definition int_part (s : string) : parsed Z :=
  match s with
  | String c rest =>
      if (c =? "0")%char then Ok 0 rest
      else if is_digit c then
        let '(m, _, rest1) := digits (digit_val c) 1 rest in Ok m rest1
      else SyntaxError
  | EmptyString => SyntaxError
  end.

(** [frac]: nothing, or a point followed by at least one digit.  Returns
    the mantissa extended by the fraction digits and their number. *)
Definition frac_part (m : Z) (s : string) : parsed (Z * Z) :=
  match s with
  | String c rest =>
      if (c =? ".")%char then
        let '(m1, k, rest1) := digits m 0 rest in
        if k =? 0 then SyntaxError else Ok (m1, k) rest1
      else Ok (m, 0) s
  | EmptyString => Ok (m, 0) s
  end.

(** [exp]: nothing, or [e] or [E], an optional sign and at least one
    digit. *)
Definition exp_part (s : string) : parsed Z :=
  match s with
  | String c rest =>
      if ((c =? "e") || (c =? "E"))%char then
        let '(sign, rest1) :=
          match rest with
          | String d rest0 =>
              if (d =? "-")%char then (-1, rest0)
              else if (d =? "+")%char then (1, rest0)
              else (1, rest)
          | EmptyString => (1, rest)
          end in
        let '(e, k, rest2) := digits 0 0 rest1 in
        if k =? 0 then SyntaxError else Ok (sign * e) rest2
      else Ok 0 s
  | EmptyString => Ok 0 s
  end.

Definition number (s : string) : parsed json :=
  let '(neg, s1) :=
    match s with
    | String c rest => if (c =? "-")%char then (true, rest) else (false, s)
    | EmptyString => (false, s)
    end in
  match int_part s1 with
  | Ok m s2 =>
      match frac_part m s2 with
      | Ok (m1, k) s3 =>
          match exp_part s3 with
          | Ok e s4 => Ok (JNumber neg m1 (e - k)) s4
          | SyntaxError => SyntaxError
          | OutOfFuel => OutOfFuel
          end
      | SyntaxError => SyntaxError
      | OutOfFuel => OutOfFuel
      end
  | SyntaxError => SyntaxError
  | OutOfFuel => OutOfFuel
  end.

(** The rest of a keyword whose first letter has been read. *)
Fixpoint keyword (word : string) (v : json) (s : string) : parsed json :=
  match word with
  | EmptyString => Ok v s
  | String w word1 =>
      match s with
      | String c rest =>
          if (c =? w)%char then keyword word1 v rest else SyntaxError
      | EmptyString => SyntaxError
      end
  end.

(** Recursive descent on the JSON grammar.  [parse_value] reads the white
    space before a value and the value; [parse_elements] reads the elements
    of a non-empty array and its closing bracket; [parse_members] reads the
    members of a non-empty object and its closing brace. *)
Fixpoint parse_value (fuel : nat) (s : string) : parsed json :=
  match fuel with
  | O => OutOfFuel
  | S n =>
      match skip_ws s with
      | EmptyString => SyntaxError
      | String c rest =>
          if (c =? "{")%char then
            match skip_ws rest with
            | String c1 rest1 =>
                if (c1 =? "}")%char then Ok (JObject []) rest1
                else pmap JObject (parse_members n rest)
            | EmptyString => SyntaxError
            end
          else if (c =? "[")%char then
            match skip_ws rest with
            | String c1 rest1 =>
                if (c1 =? "]")%char then Ok (JArray []) rest1
                else pmap JArray (parse_elements n rest)
            | EmptyString => SyntaxError
            end
          else if (c =? dquote)%char then pmap JString (string_chars rest)
          else if (c =? "t")%char then keyword "rue" (JBool true) rest
          else if (c =? "f")%char then keyword "alse" (JBool false) rest
          else if (c =? "n")%char then keyword "ull" JNull rest
          else if ((c =? "-")%char || is_digit c)
          then number (String c rest)
          else SyntaxError
      end
  end

with parse_elements (fuel : nat) (s : string) : parsed (list json) :=
  match fuel with
  | O => OutOfFuel
  | S n =>
      match parse_value n s with
      | Ok v rest =>
          match skip_ws rest with
          | String c rest1 =>
              if (c =? ",")%char
              then pmap (cons v) (parse_elements n rest1)
              else if (c =? "]")%char then Ok [v] rest1
              else SyntaxError
          | EmptyString => SyntaxError
          end
      | SyntaxError => SyntaxError
      | OutOfFuel => OutOfFuel
      end
  end

with parse_members (fuel : nat) (s : string)
  : parsed (list (list N * json)) :=
  match fuel with
  | O => OutOfFuel
  | S n =>
      match skip_ws s with
      | String c rest =>
          if (c =? dquote)%char then
            match string_chars rest with
            | Ok k rest1 =>
                match skip_ws rest1 with
                | String c2 rest2 =>
                    if (c2 =? ":")%char then
                      match parse_value n rest2 with
                      | Ok v rest3 =>
                          match skip_ws rest3 with
                          | String c3 rest4 =>
                              if (c3 =? ",")%char
                              then pmap (cons (k, v))
                                        (parse_members n rest4)
                              else if (c3 =? "}")%char
                              then Ok [(k, v)] rest4
                              else SyntaxError
                          | EmptyString => SyntaxError
                          end
                      | SyntaxError => SyntaxError
                      | OutOfFuel => OutOfFuel
                      end
                    else SyntaxError
                | EmptyString => SyntaxError
                end
            | SyntaxError => SyntaxError
            | OutOfFuel => OutOfFuel
            end
          else SyntaxError
      | EmptyString => SyntaxError
      end
  end.

(** Two calls for each character and one more are enough (see
    [parse_fuel] below). *)
Definition fuel_for (s : string) : nat := S (2 * len s).

(** [JSON.parse(text)]: one value, then only white space; anything else
    throws a [SyntaxError]. *)
Definition JSON_parse (text : string) : completion json :=
  match parse_value (fuel_for text) text with
  | Ok v rest =>
      match skip_ws rest with
      | EmptyString => Returned v
      | String _ _ => Threw JSONSyntaxError
      end
  | SyntaxError => Threw JSONSyntaxError
  | OutOfFuel => Threw JSONSyntaxError
  end.

(** *** [toLowerCase], [includes], [Set] *)

(** [c.toLowerCase()] on a code unit below 256: the letters A to Z and the
    capital letters of Latin-1 (192 to 222 without the multiplication sign
    215) move up by 32. *)
Definition lower_char (c : ascii) : ascii :=
  let n := nat_of_ascii c in
  if ((65 <=? n) && (n <=? 90)
      || (192 <=? n) && (n <=? 222) && negb (n =? 215))%nat
  then ascii_of_nat (n + 32) else c.

Fixpoint toLowerCase (s : string) : string :=
  match s with
  | String c rest => String (lower_char c) (toLowerCase rest)
  | EmptyString => EmptyString
  end.

(** [hay.includes(needle)] *)
Fixpoint includes (hay needle : string) : bool :=
  String.prefix needle hay
  || match hay with
     | String _ rest => includes rest needle
     | EmptyString => false
     end.

(** [Array.from(new Set(arr))]: the first occurrence of each string, in
    order. *)
Fixpoint Set_of (arr : list string) : list string :=
  match arr with
  | [] => []
  | x :: more =>
      x :: filter (fun y => negb (y =? x)%string) (Set_of more)
  end.

End JS.


(* ----------------------------------------------------------------- *)
(** ** [types.ts] *)

Module Types.

Record GroundingSource : Type := {
  title : string;
  (** what [chunk.web.uri] held, [None] for [undefined] *)
  uri : option string
}.

(** [data] is the value of [JSON.parse] or [null]; [rawText] and
    [timestamp] are optional fields. *)
Record AnalysisResult : Type := {
  data : JS.json;
  sources : list GroundingSource;
  rawText : option string;
  query : string;
  timestamp : option Z
}.

Inductive LoadingState : Type := IDLE | LOADING | SUCCESS | ERROR.

(** [SavedComparison extends AnalysisResult] *)
Record SavedComparison : Type := {
  base : AnalysisResult;
  id : string;
  savedAt : Z
}.

End Types.

Module HistoryItem.
Record t : Type := { query : string; timestamp : Z }.
End HistoryItem.

(* ----------------------------------------------------------------- *)
(** ** [services/gemini.ts] *)

Module Gemini.
Import JS Types.

(** The part of the response of [ai.models.generateContent] that the code
    reads.  A field that may be [undefined] is an [option]. *)
Record GroundingChunkWeb : Type := {
  web_title : option string;
  web_uri : option string
}.
Record GroundingChunk : Type := { web : option GroundingChunkWeb }.
Record GroundingMetadata : Type := {
  groundingChunks : option (list GroundingChunk)
}.
Record Candidate : Type := {
  groundingMetadata : option GroundingMetadata
}.
Record GenerateContentResponse : Type := {
  candidates : option (list Candidate);
  text : option string
}.

(** [a || b] on an optional string: [b] when [a] is [undefined] or
    empty. *)
Definition or_else (a : option string) (b : string) : string :=
  match a with
  | Some s => if truthy_string s then s else b
  | None => b
  end.

(** [response.candidates?.[0]?.groundingMetadata?.groundingChunks] *)
Definition groundingChunks_of (response : GenerateContentResponse)
  : option (list GroundingChunk) :=
  match candidates response with
  | Some (c0 :: _) =>
      match groundingMetadata c0 with
      | Some m => groundingChunks m
      | None => None
      end
  | _ => None
  end.

(** The body of the [forEach]: one source for each chunk that has a [web]
    field. *)
Fixpoint push_sources (chunks : list GroundingChunk)
  : list GroundingSource :=
  match chunks with
  | [] => []
  | chunk :: more =>
      match web chunk with
      | Some w =>
          {| title := or_else (web_title w) "Fonte Web";
             uri := web_uri w |} :: push_sources more
      | None => push_sources more
      end
  end.

Definition sources_of (response : GenerateContentResponse)
  : list GroundingSource :=
  match groundingChunks_of response with
  | Some chunks => push_sources chunks
  | None => []
  end.

(** The local [jsonData] after the inner [try]: [null] when the pattern
    does not match or [JSON.parse] throws. *)
Definition jsonData (text : string) : json :=
  match match_braces text with
  | Some span =>
      match JSON_parse span with
      | Returned v => v
      | Threw _ => JNull
      end
  | None => JNull
  end.

(** [compareProducts(query)]; [response] is the outcome of the awaited
    [generateContent] call and [now] the value of [Date.now()]. *)
Definition compareProducts (query : string)
    (response : completion GenerateContentResponse) (now : Z)
  : completion AnalysisResult :=
  match response with
  | Threw error => Threw error
  | Returned response =>
      let sources := sources_of response in
      let text := or_else (text response) "" in
      let jsonData := jsonData text in
      Returned {| data := jsonData;
                  sources := sources;
                  rawText := if negb (truthy jsonData) then Some text
                             else None;
                  query := query;
                  timestamp := Some now |}
  end.

(** [{ winner: "Indeterminado", reason: text }] *)
Definition indeterminate (text : string) : json :=
  JObject [ (units "winner", JString (units "Indeterminado"));
            (units "reason", JString (units text)) ].

(** [getPersonaAnalysis(context, personaLabel)]: the prompt is built from
    the arguments, [response] is the outcome of the awaited call.  The
    value of [JSON.parse] is returned as it is. *)
Definition getPersonaAnalysis (context : json) (personaLabel : string)
    (response : completion GenerateContentResponse) : completion json :=
  match response with
  | Threw error => Threw error
  | Returned response =>
      let text := or_else (text response) "" in
      match match_braces text with
      | Some span => JSON_parse span
      | None => Returned (indeterminate text)
      end
  end.

(** "Desculpe, não consegui processar essa pergunta.", the a-tilde
    written as the code unit 227. *)
Definition refineApology : string :=
  ("Desculpe, n" ++ String "227" "o consegui processar essa pergunta.")%string.

Definition refineError : string :=
  "Ocorreu um erro ao tentar responder sua pergunta.".

(** [refineComparison(originalContext, userQuestion)]: the prompt is built
    from the arguments, [response] is the outcome of the awaited call.  The
    [catch] returns a string, so the function returns in every case. *)
Definition refineComparison (originalContext : json) (userQuestion : string)
    (response : completion GenerateContentResponse) : string :=
  match response with
  | Returned response => or_else (text response) refineApology
  | Threw error => refineError
  end.

End Gemini.

(* ----------------------------------------------------------------- *)
(** ** The numbers of the statistics *)

Module JSNumber.

(** The double of an integer.  The integers converted here are array
    lengths and their differences, far below [2^53], so the conversion is
    exact. *)
Definition of_Z (z : Z) : float :=
  if z <? 0 then PrimFloat.opp (PrimFloat.of_uint63 (Uint63.of_Z (- z)))
  else PrimFloat.of_uint63 (Uint63.of_Z z).

(** An integral number, or one of the values that are not. *)
Inductive integral : Type :=
| Integer (z : Z)
| NotANumber
| Infinite (neg : bool).

(** [Math.round(x)]: the integer closest to [x], the upper one of two
    equally close ones, that is the floor of [x + 1/2] taken exactly.
    A finite double is [m * 2^e] with its sign. *)
Definition Math_round (x : float) : integral :=
  match Prim2SF x with
  | S754_zero _ => Integer 0
  | S754_finite s m e =>
      let n := if s then Z.neg m else Z.pos m in
      if 0 <=? e then Integer (n * 2 ^ e)
      else Integer ((2 * n + 2 ^ (- e)) / (2 * 2 ^ (- e)))
  | S754_nan => NotANumber
  | S754_infinity s => Infinite s
  end.

(** [x >= 0] *)
Definition geb0 (x : integral) : bool :=
  match x with
  | Integer z => 0 <=? z
  | NotANumber => false
  | Infinite neg => negb neg
  end.

(** The string of a number in a concatenation.  An integer is written
    in decimal (JavaScript does so below [10^21]). *)
Definition toString (x : integral) : string :=
  match x with
  | Integer z => NilZero.string_of_int (Z.to_int z)
  | NotANumber => "NaN"
  | Infinite neg => if neg then "-Infinity" else "Infinity"
  end.

End JSNumber.

(* ----------------------------------------------------------------- *)
(** ** [App.tsx] *)

Module App.
Import JS.
Import Types (AnalysisResult, SavedComparison, LoadingState,
              IDLE, LOADING, SUCCESS, ERROR, data, base, id, savedAt).
Import JSNumber.

Inductive View : Type := home | saved.
Inductive StatsPeriod : Type := P24h | P7d | P30d.

(** The React state of [App] that the handlers below read or write.  The
    theme, the suggestion list and the address bar are left out. *)
Record State : Type := {
  query : string;
  loadingState : LoadingState;
  result : option AnalysisResult;
  error : option string;
  history : list HistoryItem.t;
  savedComparisons : list SavedComparison;
  view : View
}.

(** *** [calculateRealStats] *)

Record RealStats : Type := {
  searches : Z;
  savedCount : Z;
  trend : string
}.

Definition duration (statsPeriod : StatsPeriod) : Z :=
  match statsPeriod with
  | P24h => 24 * 60 * 60 * 1000
  | P7d => 7 * 24 * 60 * 60 * 1000
  | P30d => 30 * 24 * 60 * 60 * 1000
  end.

(** [arr.filter(f).length] *)
Definition count {A : Type} (f : A -> bool) (arr : list A) : Z :=
  Z.of_nat (List.length (filter f arr)).

Definition periodCount (history : list HistoryItem.t) (duration now : Z)
  : Z :=
  count (fun h => now - HistoryItem.timestamp h <? duration) history.

Definition previousPeriodCount (history : list HistoryItem.t)
    (duration now : Z) : Z :=
  count (fun h => (now - HistoryItem.timestamp h >=? duration)
                  && (now - HistoryItem.timestamp h <? duration * 2))
        history.

(** The local [trendVal]; the quotient and the product are those of
    doubles. *)
Definition trendVal (periodCount previousPeriodCount : Z) : integral :=
  if previousPeriodCount =? 0 then
    if periodCount >? 0 then Integer 100 else Integer 0
  else
    Math_round
      (PrimFloat.mul
         (PrimFloat.div (of_Z (periodCount - previousPeriodCount))
                        (of_Z previousPeriodCount))
         (of_Z 100)).

(** The local [trendStr] *)
Definition trendStr (trendVal : integral) : string :=
  ((if geb0 trendVal then "+" else "") ++ toString trendVal ++ "%")%string.

Definition calculateRealStats (history : list HistoryItem.t)
    (savedComparisons : list SavedComparison) (statsPeriod : StatsPeriod)
    (now : Z) : RealStats :=
  let duration := duration statsPeriod in
  let periodCount := periodCount history duration now in
  let previousPeriodCount := previousPeriodCount history duration now in
  let trendStr := trendStr (trendVal periodCount previousPeriodCount) in
  let savedPeriodCount :=
    count (fun s => now - savedAt s <? duration) savedComparisons in
  {| searches := periodCount;
     savedCount := savedPeriodCount;
     trend := trendStr |}.

(** *** [handleSearch] *)

(** [searchQuery || query] *)
Definition finalQuery (searchQuery : option string) (st : State) : string :=
  Gemini.or_else searchQuery (query st).

(** "Ocorreu um erro ao processar sua comparação. Tente novamente mais
    tarde.", the c-cedilla and the a-tilde written as code units 231 and
    227. *)
Definition errorMessage : string :=
  ("Ocorreu um erro ao processar sua compara"
     ++ String "231" (String "227"
          "o. Tente novamente mais tarde."))%string.

(** The update passed to [setHistory]. *)
Definition updateHistory (finalQuery : string) (now : Z)
    (prev : list HistoryItem.t) : list HistoryItem.t :=
  let newItem := {| HistoryItem.query := finalQuery;
                    HistoryItem.timestamp := now |} in
  let filtered :=
    filter (fun item => negb (HistoryItem.query item =? finalQuery)%string)
           prev in
  firstn 20 (newItem :: filtered).

(** [handleSearch] up to the [await]: [None] when it returns at the blank
    test, otherwise the query sent and the state left behind. *)
Definition handleSearch_start (searchQuery : option string) (st : State)
  : option (string * State) :=
  let finalQuery := finalQuery searchQuery st in
  if negb (truthy_string (trim finalQuery)) then None
  else Some (finalQuery,
             {| query := finalQuery;
                loadingState := LOADING;
                result := None;
                error := None;
                history := history st;
                savedComparisons := savedComparisons st;
                view := home |}).

(** [handleSearch] after the [await]: [outcome] is how [compareProducts]
    settled, [now] the [Date.now()] of the new history item.  [st] is the
    state at that moment. *)
Definition handleSearch_settle (finalQuery : string)
    (outcome : completion AnalysisResult) (now : Z) (st : State) : State :=
  match outcome with
  | Returned data =>
      {| query := query st;
         loadingState := SUCCESS;
         result := Some data;
         error := error st;
         history := updateHistory finalQuery now (history st);
         savedComparisons := savedComparisons st;
         view := view st |}
  | Threw err =>
      {| query := query st;
         loadingState := ERROR;
         result := result st;
         error := Some errorMessage;
         history := history st;
         savedComparisons := savedComparisons st;
         view := view st |}
  end.

(** A whole run of [handleSearch] with nothing in between: [response] is
    the outcome of the model call inside [compareProducts], [t_result]
    and [t_history] the two readings of the clock. *)
Definition handleSearch (searchQuery : option string)
    (response : completion Gemini.GenerateContentResponse)
    (t_result t_history : Z) (st : State) : State :=
  match handleSearch_start searchQuery st with
  | None => st
  | Some (finalQuery, st1) =>
      handleSearch_settle finalQuery
        (Gemini.compareProducts finalQuery response t_result)
        t_history st1
  end.

(** *** Saved comparisons *)

(** [arr.findIndex(f)] *)
Fixpoint findIndex {A : Type} (f : A -> bool) (arr : list A) : Z :=
  match arr with
  | [] => -1
  | x :: more =>
      if f x then 0
      else let i := findIndex f more in
           if i <? 0 then -1 else i + 1
  end.

(** [arr.filter((x, i) => f(x, i))], [i] counted from [start] *)
Fixpoint filter_indexed {A : Type} (f : A -> Z -> bool) (start : Z)
    (arr : list A) : list A :=
  match arr with
  | [] => []
  | x :: more =>
      if f x start then x :: filter_indexed f (start + 1) more
      else filter_indexed f (start + 1) more
  end.

(** [a === b] on optional numbers *)
Definition strict_eq (a b : option Z) : bool :=
  match a, b with
  | Some x, Some y => x =? y
  | None, None => true
  | _, _ => false
  end.

(** [item.query === result.query && item.timestamp === result.timestamp] *)
Definition same_result (result : AnalysisResult) (item : SavedComparison)
  : bool :=
  (Types.query (base item) =? Types.query result)%string
  && strict_eq (Types.timestamp (base item)) (Types.timestamp result).

Definition with_saved (st : State) (l : list SavedComparison) : State :=
  {| query := query st;
     loadingState := loadingState st;
     result := result st;
     error := error st;
     history := history st;
     savedComparisons := l;
     view := view st |}.

Definition with_history (st : State) (l : list HistoryItem.t) : State :=
  {| query := query st;
     loadingState := loadingState st;
     result := result st;
     error := error st;
     history := l;
     savedComparisons := savedComparisons st;
     view := view st |}.

(** [toggleSave]; [uuid] is the value of [crypto.randomUUID()] and [now]
    that of [Date.now()]. *)
Definition toggleSave (uuid : string) (now : Z) (st : State) : State :=
  match result st with
  | None => st
  | Some result =>
      if negb (truthy (data result)) then st
      else
        let existingIndex :=
          findIndex (same_result result) (savedComparisons st) in
        if existingIndex >=? 0 then
          with_saved st
            (filter_indexed (fun _ i => negb (i =? existingIndex)) 0
               (savedComparisons st))
        else
          let toSave := {| base := result; id := uuid; savedAt := now |} in
          with_saved st (toSave :: savedComparisons st)
  end.

(** [loadSaved]; the fields [id] and [savedAt] that the stored object
    carries along are overwritten whenever it is saved again. *)
Definition loadSaved (saved : SavedComparison) (st : State) : State :=
  {| query := Types.query (base saved);
     loadingState := SUCCESS;
     result := Some (base saved);
     error := error st;
     history := history st;
     savedComparisons := savedComparisons st;
     view := home |}.

Definition deleteSaved (id : string) (st : State) : State :=
  with_saved st
    (filter (fun item => negb (Types.id item =? id)%string)
            (savedComparisons st)).

Definition clearHistory (st : State) : State := with_history st [].

Definition deleteHistoryItem (queryToDelete : string) (st : State)
  : State :=
  with_history st
    (filter (fun item =>
               negb (HistoryItem.query item =? queryToDelete)%string)
            (history st)).

Definition isCurrentResultSaved (st : State) : bool :=
  match result st with
  | Some result => existsb (same_result result) (savedComparisons st)
  | None => false
  end.

(** The click on the logo: back to the empty home page. *)
Definition goHome (st : State) : State :=
  {| query := "";
     loadingState := IDLE;
     result := None;
     error := error st;
     history := history st;
     savedComparisons := savedComparisons st;
     view := home |}.

(** *** [updateSuggestions] *)

Definition presetSuggestions : list string :=
  [ "iPhone 15 vs Galaxy S24";
    "PS5 vs Xbox Series X";
    "MacBook Air M2 vs Dell XPS 13";
    "Kindle vs Kobo";
    "Spotify vs Apple Music vs Youtube Music";
    "React vs Vue vs Angular";
    "Nike Pegasus vs Adidas Ultraboost" ].

(** The suggestion list and whether it is shown. *)
Record Suggestions : Type := {
  suggestions : list string;
  showSuggestions : bool
}.

(** [updateSuggestions(inputValue)] on the history [history] and the
    suggestion state [sg]. *)
Definition updateSuggestions (history : list HistoryItem.t)
    (inputValue : string) (sg : Suggestions) : Suggestions :=
  if negb (truthy_string (trim inputValue)) then
    {| suggestions := []; showSuggestions := showSuggestions sg |}
  else
    let historyStrings := map HistoryItem.query history in
    let combined := Set_of (historyStrings ++ presetSuggestions) in
    let filtered :=
      firstn 5
        (filter (fun item =>
                   includes (toLowerCase item) (toLowerCase inputValue)
                   && negb (toLowerCase item =? toLowerCase inputValue)%string)
                combined) in
    {| suggestions := filtered;
       showSuggestions := (0 <? Z.of_nat (List.length filtered)) |}.

End App.

(* ----------------------------------------------------------------- *)
(** ** [components/ComparisonResults.tsx]: the persona analysis *)

Module ComparisonResults.
Import JS.

(** The persona state of the component and the [preferredPersonaId] key
    of [localStorage]. *)
Record State : Type := {
  selectedPersona : option string;
  personaResult : option json;
  loadingPersona : bool;
  preferredPersonaId : option string
}.

(** [handlePersonaSelect] up to the [await]; [stored] tells whether
    [localStorage.setItem] went through. *)
Definition handlePersonaSelect_start (personaLabel personaId : string)
    (stored : bool) (st : State) : State :=
  {| selectedPersona := Some personaId;
     personaResult := None;
     loadingPersona := true;
     preferredPersonaId :=
       if stored then Some personaId else preferredPersonaId st |}.

(** [handlePersonaSelect] after the [await]: [outcome] is how
    [getPersonaAnalysis] settled, [st] the state at that moment. *)
Definition handlePersonaSelect_settle (outcome : completion json)
    (st : State) : State :=
  match outcome with
  | Returned result =>
      {| selectedPersona := selectedPersona st;
         personaResult := Some result;
         loadingPersona := false;
         preferredPersonaId := preferredPersonaId st |}
  | Threw error =>
      {| selectedPersona := selectedPersona st;
         personaResult := personaResult st;
         loadingPersona := false;
         preferredPersonaId := preferredPersonaId st |}
  end.

(** With no [data] nothing is awaited and the [finally] runs at once. *)
Definition handlePersonaSelect_nodata (st : State) : State :=
  {| selectedPersona := selectedPersona st;
     personaResult := personaResult st;
     loadingPersona := false;
     preferredPersonaId := preferredPersonaId st |}.

(** What happens to the component: a persona is selected, or the request
    sent for the persona [personaId] settles.  Nothing in the state says
    which request a response belongs to; the [personaId] of [Settled] is
    kept here only to speak about it. *)
Inductive event : Type :=
| Selected (personaLabel personaId : string) (stored : bool)
| Settled (personaId : string) (outcome : completion json).

Definition step (data : json) (st : State) (ev : event) : State :=
  match ev with
  | Selected personaLabel personaId stored =>
      let st1 := handlePersonaSelect_start personaLabel personaId stored st
      in if truthy data then st1 else handlePersonaSelect_nodata st1
  | Settled _ outcome => handlePersonaSelect_settle outcome st
  end.

Definition run (data : json) (evs : list event) (st : State) : State :=
  fold_left (step data) evs st.

(** The state of a freshly mounted component. *)
Definition initial (preferred : option string) : State :=
  {| selectedPersona := None;
     personaResult := None;
     loadingPersona := false;
     preferredPersonaId := preferred |}.

(** *** The persona selected when a result is shown *)

(** [PersonaDefinition] of [types.ts] *)
Record PersonaDefinition : Type := {
  id : string;
  label : string;
  description : string;
  icon : string
}.

(** The fields of [ComparisonData] that the effect reads, with their
    declared types. *)
Record PersonaData : Type := {
  personas : list PersonaDefinition;
  suggestedPersona : string
}.

(** The local [personaIdToSelect] after the first [if]: the stored
    preference when it is the id of one of the personas, otherwise the
    suggestion of the record when there is one. *)
Definition personaIdToSelect (savedPersona : option string)
    (data : option PersonaData) : option string :=
  let preferred :=
    match savedPersona, data with
    | Some saved, Some d =>
        truthy_string saved
        && existsb (fun p => (id p =? saved)%string) (personas d)
    | _, _ => false
    end in
  if preferred then savedPersona
  else
    match data with
    | Some d => if truthy_string (suggestedPersona d)
                then Some (suggestedPersona d) else None
    | None => None
    end.

(** The persona found for [personaIdToSelect], if any. *)
Definition personaToSelect (savedPersona : option string)
    (data : option PersonaData) : option PersonaDefinition :=
  match personaIdToSelect savedPersona data, data with
  | Some wanted, Some d =>
      if truthy_string wanted
      then find (fun p => (id p =? wanted)%string) (personas d)
      else None
  | _, _ => None
  end.

(** [!!personaResult] *)
Definition has_result (st : State) : bool :=
  match personaResult st with
  | Some v => truthy v
  | None => false
  end.

(** The persona part of the effect that runs when a result is shown.
    [getItem] is the outcome of [localStorage.getItem('preferredPersonaId')]
    ([None] for [null]); when it throws, the [catch] skips the rest.
    [stored] is passed on to [handlePersonaSelect].  The result is the state
    left behind and the label and id of the request sent, if one is. *)
Definition loadPersona (getItem : completion (option string))
    (data : option PersonaData) (stored : bool) (st : State)
  : State * option (string * string) :=
  match getItem with
  | Threw error => (st, None)
  | Returned savedPersona =>
      match personaToSelect savedPersona data with
      | Some p =>
          let st1 := {| selectedPersona := Some (id p);
                        personaResult := personaResult st;
                        loadingPersona := loadingPersona st;
                        preferredPersonaId := preferredPersonaId st |} in
          match personaIdToSelect savedPersona data with
          | Some wanted =>
              if truthy_string (label p) && negb (has_result st)
              then (handlePersonaSelect_start (label p) wanted stored st1,
                    Some (label p, wanted))
              else (st1, None)
          | None => (st1, None)
          end
      | None => (st, None)
      end
  end.

(** *** The chat about a comparison *)

Inductive Role : Type := user | model.

Record ChatMessage : Type := { role : Role; text : string }.

Record Chat : Type := {
  chatInput : string;
  chatMessages : list ChatMessage;
  isRefining : bool
}.

(** [submitRefine(msg)] up to the [await]: [None] when it returns at the
    first test. *)
Definition submitRefine_start (data : json) (msg : string) (st : Chat)
  : option Chat :=
  if negb (truthy_string (trim msg)) || negb (truthy data) then None
  else Some {| chatInput := chatInput st;
               chatMessages :=
                 chatMessages st ++ [ {| role := user; text := msg |} ];
               isRefining := true |}.

(** [submitRefine] after the [await]: [outcome] is how [refineComparison]
    settled. *)
Definition submitRefine_settle (outcome : completion string) (st : Chat)
  : Chat :=
  let answer :=
    match outcome with
    | Returned responseText => responseText
    | Threw error => "Erro ao refinar a resposta."
    end in
  {| chatInput := chatInput st;
     chatMessages := chatMessages st ++ [ {| role := model; text := answer |} ];
     isRefining := false |}.

(** A whole run of [submitRefine]; [response] is the outcome of the model
    call inside [refineComparison]. *)
Definition submitRefine (data : json) (msg : string)
    (response : completion Gemini.GenerateContentResponse) (st : Chat)
  : Chat :=
  match submitRefine_start data msg st with
  | None => st
  | Some st1 =>
      submitRefine_settle
        (Returned (Gemini.refineComparison data msg response)) st1
  end.

(** [handleRefineSubmit]: the input is sent and the field is emptied. *)
Definition handleRefineSubmit (data : json)
    (response : completion Gemini.GenerateContentResponse) (st : Chat)
  : Chat :=
  let st1 := submitRefine data (chatInput st) response st in
  {| chatInput := "";
     chatMessages := chatMessages st1;
     isRefining := isRefining st1 |}.

End ComparisonResults.

(* ----------------------------------------------------------------- *)
(** ** Sessions of the application *)

Module Session.
Import JS Types.

(** The handlers of [App] as events.  A search is split at its [await],
    so that anything can happen in between. *)
Inductive event : Type :=
| SearchStarted (searchQuery : option string)
| SearchSettled (finalQuery : string)
    (outcome : completion AnalysisResult) (now : Z)
| SaveToggled (uuid : string) (now : Z)
| SavedLoaded (saved : SavedComparison)
| SavedDeleted (id : string)
| HistoryCleared
| HistoryItemDeleted (queryToDelete : string)
| Reloaded.

(** A page load: the history and the saved comparisons come back from
    [localStorage], the rest starts afresh. *)
Definition reload (st : App.State) : App.State :=
  {| App.query := "";
     App.loadingState := IDLE;
     App.result := None;
     App.error := None;
     App.history := App.history st;
     App.savedComparisons := App.savedComparisons st;
     App.view := App.home |}.

Definition step (st : App.State) (ev : event) : App.State :=
  match ev with
  | SearchStarted searchQuery =>
      match App.handleSearch_start searchQuery st with
      | Some (_, st1) => st1
      | None => st
      end
  | SearchSettled finalQuery outcome now =>
      App.handleSearch_settle finalQuery outcome now st
  | SaveToggled uuid now => App.toggleSave uuid now st
  | SavedLoaded saved => App.loadSaved saved st
  | SavedDeleted id => App.deleteSaved id st
  | HistoryCleared => App.clearHistory st
  | HistoryItemDeleted queryToDelete =>
      App.deleteHistoryItem queryToDelete st
  | Reloaded => reload st
  end.

Definition run (evs : list event) (st : App.State) : App.State :=
  fold_left step evs st.

(** The first load, with nothing stored yet. *)
Definition initial : App.State :=
  {| App.query := "";
     App.loadingState := IDLE;
     App.result := None;
     App.error := None;
     App.history := [];
     App.savedComparisons := [];
     App.view := App.home |}.

End Session.

(* ----------------------------------------------------------------- *)
(** ** Vocabulary of the statements *)

Module Vocabulary.
Import JS Types.

(** The character [c] occurs in [s]. *)
Fixpoint occurs (c : ascii) (s : string) : bool :=
  match s with
  | String d rest => (d =? c)%char || occurs c rest
  | EmptyString => false
  end.

(** An opening brace with a closing brace somewhere after it. *)
Definition brace_span (text : string) : Prop :=
  exists before inside after : string,
    text = (before ++ "{" ++ inside ++ "}" ++ after)%string.

(** A JSON text written with apostrophes in place of double quotes. *)
Fixpoint requote (s : string) : string :=
  match s with
  | String c rest =>
      String (if (c =? "'")%char then dquote else c) (requote rest)
  | EmptyString => EmptyString
  end.

(** The member [name] of an object: the last one of that name. *)
Fixpoint member (name : list N) (members : list (list N * json))
  : option json :=
  match members with
  | [] => None
  | (k, v) :: more =>
      match member name more with
      | Some w => Some w
      | None => if list_eq_dec N.eq_dec k name then Some v else None
      end
  end.

Definition is_string (v : option json) : bool :=
  match v with Some (JString _) => true | _ => false end.
Definition is_number (v : option json) : bool :=
  match v with Some (JNumber _ _ _) => true | _ => false end.
Definition is_array (v : option json) : bool :=
  match v with Some (JArray _) => true | _ => false end.

(** The required fields of the interface [ComparisonData], each of its
    kind. *)
Definition is_ComparisonData (v : json) : bool :=
  match v with
  | JObject m =>
      is_array (member (units "products") m)
      && is_string (member (units "summary") m)
      && is_string (member (units "verdict") m)
      && is_number (member (units "rivalryScore") m)
      && is_string (member (units "rivalryText") m)
      && is_array (member (units "comparisonTable") m)
      && is_array (member (units "scores") m)
      && is_array (member (units "personas") m)
      && is_string (member (units "suggestedPersona") m)
  | _ => false
  end.

(** The members of a record in the format the prompt asks for: two
    products, four personas, one row of the table. *)
Definition sample_members : string :=
  requote
    (" 'products': ["
     ++ "{'name': 'A', 'priceEstimate': 'R$ 10', 'pros': ['leve'], 'cons': []},"
     ++ "{'name': 'B', 'priceEstimate': 'R$ 12', 'pros': [], 'cons': ['caro']}],"
     ++ " 'summary': 'A e B', 'verdict': 'A', 'rivalryScore': 85,"
     ++ " 'rivalryText': 'alta',"
     ++ " 'searchTrend': [{'month': 'Jan', 'value': 45}],"
     ++ " 'personas': ["
     ++ "{'id': 'p1', 'label': 'Gamer', 'description': 'joga', 'icon': 'gamepad'},"
     ++ "{'id': 'p2', 'label': 'Aluno', 'description': 'estuda', 'icon': 'student'},"
     ++ "{'id': 'p3', 'label': 'Pro', 'description': 'trabalha', 'icon': 'briefcase'},"
     ++ "{'id': 'p4', 'label': 'Casa', 'description': 'mora', 'icon': 'home'}],"
     ++ " 'suggestedPersona': 'p1',"
     ++ " 'comparisonTable': [{'feature': 'Tela', 'values': ['6.1', '6.7'],"
     ++ " 'winnerIndex': 1, 'isKeyDifference': true}],"
     ++ " 'scores': [{'subject': 'Desempenho', 'prod0': 90, 'prod1': 85,"
     ++ " 'fullMark': 100}] ")%string.

Definition sample_record : string := ("{" ++ sample_members ++ "}")%string.

(** The value of [sample_record]. *)
Definition sample_value : json :=
  Eval vm_compute in
    match JSON_parse sample_record with
    | Returned v => v
    | Threw _ => JNull
    end.

(** A citation has a usable URI: one that is there and not empty. *)
Definition usable_uri (u : option string) : bool :=
  match u with
  | Some s => truthy_string s
  | None => false
  end.

(** A response that carries the citation chunks [chunks] and the text
    [text]. *)
Definition response_with (chunks : list Gemini.GroundingChunk)
    (text : option string) : Gemini.GenerateContentResponse :=
  {| Gemini.candidates := Some
       [ {| Gemini.groundingMetadata := Some
              {| Gemini.groundingChunks := Some chunks |} |} ];
     Gemini.text := text |}.

Definition web_chunk (title uri : option string) : Gemini.GroundingChunk :=
  {| Gemini.web := Some {| Gemini.web_title := title;
                           Gemini.web_uri := uri |} |}.

(** [{ winner, reason }], a verdict of the persona analysis. *)
Definition verdict (winner reason : string) : json :=
  JObject [ (units "winner", JString (units winner));
            (units "reason", JString (units reason)) ].

(** The persona of the last selection among [evs], [before] if there is
    none. *)
Definition last_selected (evs : list ComparisonResults.event)
    (before : option string) : option string :=
  fold_left (fun sel ev =>
               match ev with
               | ComparisonResults.Selected _ personaId _ => Some personaId
               | ComparisonResults.Settled _ _ => sel
               end) evs before.

(** The number of entries of the history for the query [q]. *)
Definition count_query (q : string) (history : list HistoryItem.t) : nat :=
  List.length
    (filter (fun item => (HistoryItem.query item =? q)%string) history).

Definition entry (q : string) (t : Z) : HistoryItem.t :=
  {| HistoryItem.query := q; HistoryItem.timestamp := t |}.

(** The identity of a result for saving: its query and its timestamp. *)
Definition key (r : AnalysisResult) : string * option Z :=
  (query r, timestamp r).

(** A saved comparison with the identity of [r] is in the list. *)
Definition is_saved (r : AnalysisResult) (l : list SavedComparison)
  : bool :=
  existsb (App.same_result r) l.

(** The number of saved comparisons with the identity of [r]. *)
Definition count_saved (r : AnalysisResult) (l : list SavedComparison)
  : nat :=
  List.length (filter (App.same_result r) l).

(** The structured result of a search for "A vs B" at time 10, and a
    session in which it is found and then saved. *)
Definition sample_result : AnalysisResult :=
  {| data := sample_value; sources := []; rawText := None;
     query := "A vs B"; timestamp := Some 10 |}.

Definition sample_session : list Session.event :=
  [ Session.SearchStarted (Some "A vs B");
    Session.SearchSettled "A vs B" (Returned sample_result) 11;
    Session.SaveToggled "id-0" 12 ].

(** [z] is the integer nearest to [num / den], the upper one of two
    equally near: [z - 1/2 <= num / den < z + 1/2], for [den > 0]. *)
Definition nearest_integer (num den z : Z) : Prop :=
  (2 * z - 1) * den <= 2 * num < (2 * z + 1) * den.

Definition round_half_up (num den : Z) : Z := (2 * num + den) / (2 * den).

(** Following the spec: the trend is [round ((current - previous) /
    previous * 100)] when [previous > 0]; when [previous = 0] it is 100
    if [current > 0], else 0.  Here the quotient is the exact one. *)
Definition spec_trend (current previous : Z) : Z :=
  if previous =? 0 then (if current >? 0 then 100 else 0)
  else round_half_up ((current - previous) * 100) previous.

(** A percentage with its sign: a plus sign unless it is negative. *)
Definition signed_percent (z : Z) : string :=
  String.append (if z <? 0 then "" else "+")
    (String.append (NilZero.string_of_int (Z.to_int z)) "%").

(** The trend of the code is the exact one for all counts up to [n]. *)
Definition trend_exact_on (current previous : Z) : bool :=
  match App.trendVal current previous with
  | JSNumber.Integer z => z =? spec_trend current previous
  | _ => false
  end.

Definition trend_exact_upto (n : nat) : bool :=
  forallb (fun p => forallb (fun c => trend_exact_on (Z.of_nat c)
                                                      (Z.of_nat p))
                            (seq 0 (S n)))
          (seq 0 (S n)).

(** A history with two searches in the last 24 hours before [now = 200
    000 000] and four in the 24 hours before those. *)
Definition sample_history : list HistoryItem.t :=
  [ entry "f" 199000000; entry "e" 150000000;
    entry "d" 110000000; entry "c" 100000000;
    entry "b" 50000000; entry "a" 30000000 ].

(** The list without its first element that satisfies [f]. *)
Fixpoint remove_first {A : Type} (f : A -> bool) (l : list A) : list A :=
  match l with
  | [] => []
  | x :: more => if f x then more else x :: remove_first f more
  end.

(** No two saved comparisons have the same identity. *)
Definition keys_unique (l : list SavedComparison) : Prop :=
  NoDup (map (fun item => key (base item)) l).

(** The loading state agrees with what there is to show: a result with
    SUCCESS, the error message with ERROR, neither while LOADING. *)
Definition consistent (st : App.State) : Prop :=
  (App.loadingState st = SUCCESS -> App.result st <> None)
  /\ (App.loadingState st = ERROR -> App.error st = Some App.errorMessage)
  /\ (App.loadingState st = LOADING ->
      App.result st = None /\ App.error st = None).

(** The entries of a history for queries other than [q]. *)
Definition others (q : string) (history : list HistoryItem.t)
  : list HistoryItem.t :=
  filter (fun item => negb (HistoryItem.query item =? q)%string) history.

(** No two entries of the history have the same query. *)
Definition queries_unique (history : list HistoryItem.t) : Prop :=
  NoDup (map HistoryItem.query history).

(** Every character of [s] is white space for [trim]. *)
Definition all_space (s : string) : bool :=
  forallb is_trim_space (list_ascii_of_string s).

(** A persona of the record has the id [wanted]. *)
Definition is_persona (data : ComparisonResults.PersonaData)
    (wanted : string) : bool :=
  existsb (fun p => (ComparisonResults.id p =? wanted)%string)
          (ComparisonResults.personas data).

(** A record with two personas that suggests the second. *)
Definition sample_personas : ComparisonResults.PersonaData :=
  {| ComparisonResults.personas :=
       [ {| ComparisonResults.id := "p1"; ComparisonResults.label := "Gamer";
            ComparisonResults.description := "joga";
            ComparisonResults.icon := "gamepad" |};
         {| ComparisonResults.id := "p2"; ComparisonResults.label := "Aluno";
            ComparisonResults.description := "estuda";
            ComparisonResults.icon := "student" |} ];
     ComparisonResults.suggestedPersona := "p2" |}.

End Vocabulary.

(* ================================================================= *)
(** * Part II: theorems *)

Import JS Types Vocabulary.

(* ----------------------------------------------------------------- *)
(** ** The pattern [/\{[\s\S]*\}/] *)

Lemma string_app_assoc (a b c : string) :
  ((a ++ b) ++ c = a ++ (b ++ c))%string.
Proof. induction a as [|x a IH]; simpl; [reflexivity | now rewrite IH]. Qed.

Lemma through_last_close_none (s : string) :
  occurs "}" s = false -> through_last_close s = None.
Proof.
  induction s as [|c s IH]; simpl; [reflexivity|].
  intros H. apply orb_false_iff in H as [Hc Hs].
  rewrite (IH Hs), Hc. reflexivity.
Qed.

Lemma through_last_close_app (a b span : string) :
  through_last_close b = Some span ->
  through_last_close (a ++ b) = Some (a ++ span)%string.
Proof.
  intros Hb. induction a as [|c a IH]; simpl; [exact Hb|].
  rewrite IH. reflexivity.
Qed.

Lemma through_last_close_closing (after : string) :
  occurs "}" after = false ->
  through_last_close (String "}" after) = Some "}"%string.
Proof.
  intros H. simpl. rewrite (through_last_close_none _ H). reflexivity.
Qed.

Lemma match_braces_skip (before s : string) :
  occurs "{" before = false ->
  match_braces (before ++ s) = match_braces s.
Proof.
  induction before as [|c before IH]; simpl; [reflexivity|].
  intros H. apply orb_false_iff in H as [Hc Hs].
  rewrite Hc. apply IH, Hs.
Qed.

(** With no opening brace before it and no closing brace after it, a braced
    text is what the pattern matches. *)
Lemma match_braces_embedded (before inside after : string) :
  occurs "{" before = false ->
  occurs "}" after = false ->
  match_braces (before ++ ("{" ++ inside ++ "}") ++ after)
  = Some ("{" ++ inside ++ "}")%string.
Proof.
  intros Hb Ha. rewrite match_braces_skip by exact Hb.
  cbn [append match_braces]. rewrite Ascii.eqb_refl.
  rewrite string_app_assoc.
  rewrite (through_last_close_app inside _ "}"); [reflexivity|].
  apply through_last_close_closing, Ha.
Qed.

Lemma through_last_close_shape (s span : string) :
  through_last_close s = Some span ->
  exists inside after, span = (inside ++ "}")%string
                       /\ s = (span ++ after)%string.
Proof.
  revert span. induction s as [|c s IH]; simpl; [discriminate|].
  intros span. destruct (through_last_close s) as [sp|] eqn:E.
  - intros [= <-]. destruct (IH sp eq_refl) as (i & a & -> & Hs).
    exists (String c i), a. split; [reflexivity|].
    simpl. now rewrite <- Hs.
  - destruct (Ascii.eqb_spec c "}") as [->|_]; [|discriminate].
    intros [= <-]. exists EmptyString, s. split; reflexivity.
Qed.

(** What the pattern matches is a span of the text from an opening brace
    to a closing brace. *)
Lemma match_braces_shape (text span : string) :
  match_braces text = Some span ->
  exists before inside after,
    span = ("{" ++ inside ++ "}")%string
    /\ text = (before ++ span ++ after)%string.
Proof.
  revert span. induction text as [|c text IH]; simpl; [discriminate|].
  intros span H.
  destruct (Ascii.eqb_spec c "{") as [->|_].
  - destruct (through_last_close text) as [sp|] eqn:E.
    + injection H as <-.
      destruct (through_last_close_shape _ _ E) as (i & a & -> & Ht).
      exists EmptyString, i, a. split; [reflexivity|].
      simpl. now rewrite <- Ht.
    + destruct (IH _ H) as (b & i & a & Hs & Ht).
      exists (String "{" b), i, a. split; [exact Hs|].
      simpl. now rewrite <- Ht.
  - destruct (IH _ H) as (b & i & a & Hs & Ht).
    exists (String c b), i, a. split; [exact Hs|].
    simpl. now rewrite <- Ht.
Qed.

Lemma match_braces_none (text : string) :
  ~ brace_span text -> match_braces text = None.
Proof.
  intros H. destruct (match_braces text) as [span|] eqn:E; [|reflexivity].
  exfalso. apply H.
  destruct (match_braces_shape _ _ E) as (b & i & a & -> & ->).
  exists b, i, a. now rewrite !string_app_assoc.
Qed.

Lemma occurs_app (c : ascii) (a b : string) :
  occurs c (a ++ b) = occurs c a || occurs c b.
Proof.
  induction a as [|x a IH]; simpl; [reflexivity|].
  now rewrite IH, orb_assoc.
Qed.

Lemma through_last_close_some (s : string) :
  occurs "}" s = true -> through_last_close s <> None.
Proof.
  induction s as [|c s IH]; simpl; [discriminate|].
  intros H. destruct (through_last_close s); [discriminate|].
  destruct (occurs "}" s); [now exfalso; apply IH|].
  rewrite orb_false_r in H. now rewrite H.
Qed.

Lemma occurs_middle (c : ascii) (a b : string) :
  occurs c (a ++ String c b) = true.
Proof.
  rewrite occurs_app. simpl. rewrite Ascii.eqb_refl. apply orb_true_r.
Qed.

Lemma match_braces_some (text : string) :
  brace_span text -> match_braces text <> None.
Proof.
  intros (b & i & a & ->). induction b as [|c b IH]; simpl.
  - destruct (through_last_close (i ++ String "}" a)) eqn:E; [discriminate|].
    exfalso. revert E. apply through_last_close_some, occurs_middle.
  - destruct (c =? "{")%char; [|exact IH].
    destruct (through_last_close _) eqn:E; [discriminate|].
    exfalso. revert E. apply through_last_close_some.
    change (b ++ String "{" (i ++ String "}" a))%string
      with (b ++ ("{" ++ i) ++ String "}" a)%string.
    rewrite <- string_app_assoc. apply occurs_middle.
Qed.

(** The pattern fails exactly on the texts without a brace span. *)
Lemma match_braces_None_iff (text : string) :
  match_braces text = None <-> ~ brace_span text.
Proof.
  split.
  - intros E H. now apply (match_braces_some text H).
  - apply match_braces_none.
Qed.

(* ----------------------------------------------------------------- *)
(** ** [JSON.parse] never runs out of fuel *)

Ltac break_parse :=
  repeat (match goal with
          | H : Ok _ _ = Ok _ _ |- _ => injection H as ? ?
          | H : (_, _) = (_, _) |- _ => injection H as ? ?
          | H : String _ _ = String _ _ |- _ => injection H as ? ?
          | H : pmap _ ?p = Ok _ _ |- _ => destruct p eqn:?; simpl in H
          | H : context [match ?x with _ => _ end] |- _ => destruct x eqn:?
          end; try discriminate; subst).

Lemma skip_ws_len (s : string) : (len (skip_ws s) <= len s)%nat.
Proof.
  induction s as [|c s IH]; simpl; [lia|].
  destruct (is_ws c); simpl; unfold len in *; lia.
Qed.

Lemma skip_ws_cons (s : string) (c : ascii) (rest : string) :
  skip_ws s = String c rest -> (len rest < len s)%nat.
Proof.
  intros H. pose proof (skip_ws_len s) as L. rewrite H in L.
  simpl in L. lia.
Qed.

Lemma string_chars_len (s : string) (u : list N) (rest : string) :
  string_chars s = Ok u rest -> (len rest < len s)%nat.
Proof.
  remember (len s) as n eqn:E. revert s u rest E.
  induction n as [n IH] using lt_wf_ind. intros s u rest -> H.
  destruct s as [|c s]; simpl in H; [discriminate|].
  unfold len in *. break_parse; simpl;
    try lia;
    match goal with
    | E : string_chars ?r = Ok _ _ |- _ =>
        apply (IH (String.length r)) in E; simpl; try lia; reflexivity
    end.
Qed.

Lemma digits_len (s : string) (acc k m k1 : Z) (rest : string) :
  digits acc k s = (m, k1, rest) -> (len rest <= len s)%nat.
Proof.
  revert acc k. induction s as [|c s IH]; simpl; intros acc k H.
  - injection H as _ _ <-. simpl. lia.
  - destruct (is_digit c).
    + apply IH in H. unfold len in *. lia.
    + injection H as _ _ <-. simpl. lia.
Qed.

Lemma number_len (s : string) (v : json) (rest : string) :
  number s = Ok v rest -> (len rest < len s)%nat.
Proof.
  unfold number, int_part, frac_part, exp_part. intros H.
  unfold len in *. break_parse;
    repeat match goal with
      | E : digits _ _ _ = _ |- _ => apply digits_len in E; unfold len in E
      end;
    simpl in *; lia.
Qed.

Lemma keyword_len (word : string) (v w : json) (s rest : string) :
  keyword word v s = Ok w rest -> (len rest <= len s)%nat.
Proof.
  revert s. induction word as [|x word IH]; simpl; intros s H.
  - injection H as _ <-. lia.
  - destruct s as [|c s]; [discriminate|].
    destruct (c =? x)%char; [|discriminate].
    apply IH in H. unfold len in *. simpl. lia.
Qed.

(** Each of the three parsers consumes at least one character. *)
Lemma parse_len (n : nat) :
  (forall s v rest, parse_value n s = Ok v rest -> (len rest < len s)%nat)
  /\ (forall s l rest,
        parse_elements n s = Ok l rest -> (len rest < len s)%nat)
  /\ (forall s l rest,
        parse_members n s = Ok l rest -> (len rest < len s)%nat).
Proof.
  induction n as [|n (IHv & IHe & IHm)]; [repeat split; discriminate|].
  repeat split; intros s v rest H; cbn [parse_value parse_elements
                                          parse_members] in H;
    break_parse;
    repeat match goal with
      | E : skip_ws _ = String _ _ |- _ => apply skip_ws_cons in E
      | E : parse_value n _ = Ok _ _ |- _ => apply IHv in E
      | E : parse_elements n _ = Ok _ _ |- _ => apply IHe in E
      | E : parse_members n _ = Ok _ _ |- _ => apply IHm in E
      | E : string_chars _ = Ok _ _ |- _ => apply string_chars_len in E
      | E : number _ = Ok _ _ |- _ => apply number_len in E
      | E : keyword _ _ _ = Ok _ _ |- _ => apply keyword_len in E
      end;
    unfold len in *; simpl in *; lia.
Qed.

Ltac break_fuel :=
  repeat (match goal with
          | H : (_, _) = (_, _) |- _ => injection H as ? ?
          | H : pmap _ ?p = OutOfFuel |- _ => destruct p eqn:?; simpl in H
          | H : context [match ?x with _ => _ end] |- _ => destruct x eqn:?
          end; try discriminate; subst).

Lemma string_chars_fuel (s : string) : string_chars s <> OutOfFuel.
Proof.
  remember (len s) as n eqn:E. revert s E.
  induction n as [n IH] using lt_wf_ind. intros s -> H.
  destruct s as [|c s]; simpl in H; [discriminate|].
  unfold len in *. break_fuel;
    match goal with
    | E : string_chars ?r = OutOfFuel |- _ =>
        apply (IH (String.length r)) in E; simpl; try lia; reflexivity
    end.
Qed.

Lemma number_fuel (s : string) : number s <> OutOfFuel.
Proof.
  unfold number, int_part, frac_part, exp_part. intros H. break_fuel.
Qed.

Lemma keyword_fuel (word : string) (v : json) (s : string) :
  keyword word v s <> OutOfFuel.
Proof.
  revert s. induction word as [|x word IH]; simpl; intros s H.
  - discriminate.
  - break_fuel. now apply IH in H.
Qed.

Ltac use_lengths n :=
  repeat match goal with
    | E : skip_ws _ = String _ _ |- _ => apply skip_ws_cons in E
    | E : parse_value n _ = Ok _ _ |- _ => apply (parse_len n) in E
    | E : string_chars _ = Ok _ _ |- _ => apply string_chars_len in E
    end;
  unfold len in *; simpl in *.

(** Two units of fuel for each character are enough. *)
Lemma parse_fuel (n : nat) :
  (forall s, (2 * len s < n)%nat -> parse_value n s <> OutOfFuel)
  /\ (forall s, (2 * len s + 1 < n)%nat -> parse_elements n s <> OutOfFuel)
  /\ (forall s, (2 * len s + 1 < n)%nat -> parse_members n s <> OutOfFuel).
Proof.
  induction n as [|n (IHv & IHe & IHm)].
  - repeat split; intros s L; unfold len in *; lia.
  - repeat split; intros s L H;
      cbn [parse_value parse_elements parse_members] in H; break_fuel;
      repeat match goal with
        | E : string_chars _ = OutOfFuel |- _ =>
            exact (string_chars_fuel _ E)
        | E : number _ = OutOfFuel |- _ => exact (number_fuel _ E)
        | E : keyword _ _ _ = OutOfFuel |- _ => exact (keyword_fuel _ _ _ E)
        | E : parse_value n _ = OutOfFuel |- _ =>
            apply IHv in E; [exact E | use_lengths n; lia]
        | E : parse_elements n _ = OutOfFuel |- _ =>
            apply IHe in E; [exact E | use_lengths n; lia]
        | E : parse_members n _ = OutOfFuel |- _ =>
            apply IHm in E; [exact E | use_lengths n; lia]
        end.
Qed.

(** [JSON_parse] gives its parser enough fuel: it throws a [SyntaxError]
    only where the grammar is broken. *)
Lemma JSON_parse_fuel (text : string) :
  parse_value (fuel_for text) text <> OutOfFuel.
Proof. apply parse_fuel. unfold fuel_for, len. lia. Qed.

(* ----------------------------------------------------------------- *)
(** ** [JSON.parse] on a braced text *)

(** A text that starts with an opening brace parses to an object, if it
    parses. *)
Lemma JSON_parse_braced (s : string) (v : json) :
  JSON_parse (String "{" s) = Returned v -> exists m, v = JObject m.
Proof.
  unfold JSON_parse, fuel_for.
  cbn [parse_value skip_ws is_ws Ascii.eqb Bool.eqb orb].
  destruct (skip_ws s) as [|c1 rest1].
  - discriminate.
  - destruct (c1 =? "}")%char.
    + destruct (skip_ws rest1); [|discriminate].
      intros [= <-]. now exists [].
    + destruct (parse_members _ s) as [m rest| |]; simpl; try discriminate.
      destruct (skip_ws rest); [|discriminate].
      intros [= <-]. now exists m.
Qed.

Lemma truthy_string_embedded (before s : string) :
  truthy_string (before ++ String "{" s) = true.
Proof. destruct before; reflexivity. Qed.

(* ----------------------------------------------------------------- *)
(** ** C1: extraction of the record from the model's text *)

(** C1, as the code has it: a JSON object text embedded in prose is
    recovered unchanged when the prose before it has no opening brace and
    the prose after it has no closing brace.  The span matched is then the
    record's text itself, [jsonData] is its value, and [compareProducts]
    returns that value as [data], with no [rawText]. *)
Theorem extraction_round_trip (before inside after : string) (v : json) :
  let record := ("{" ++ inside ++ "}")%string in
  let text := (before ++ record ++ after)%string in
  occurs "{" before = false ->
  occurs "}" after = false ->
  JSON_parse record = Returned v ->
  match_braces text = Some record
  /\ Gemini.jsonData text = v
  /\ forall query response now,
       Gemini.text response = Some text ->
       Gemini.compareProducts query (Returned response) now
       = Returned {| data := v;
                     sources := Gemini.sources_of response;
                     rawText := None;
                     query := query;
                     timestamp := Some now |}.
Proof.
  intros record text Hb Ha Hv.
  assert (Hm : match_braces text = Some record).
  { unfold text, record. now apply match_braces_embedded. }
  assert (Hj : Gemini.jsonData text = v).
  { unfold Gemini.jsonData. now rewrite Hm, Hv. }
  split; [exact Hm|]. split; [exact Hj|].
  intros query response now Ht. unfold Gemini.compareProducts.
  rewrite Ht. unfold Gemini.or_else.
  replace (truthy_string text) with true
    by (symmetry; apply truthy_string_embedded).
  rewrite Hj. destruct (JSON_parse_braced _ _ Hv) as [m ->]. reflexivity.
Qed.

(** The sample record between two pieces of prose. *)
Lemma extraction_round_trip_witness :
  Gemini.jsonData ("Segue a resposta: " ++ sample_record ++ " Fim.")
  = sample_value
  /\ is_ComparisonData sample_value = true.
Proof.
  split; [|reflexivity].
  apply (extraction_round_trip "Segue a resposta: " sample_members " Fim."
           sample_value); reflexivity.
Defined.

(** C1, as stated, fails: with a brace in the prose before the record the
    span starts too early, [JSON.parse] throws on it and the record is
    lost. *)
Lemma extraction_loses_record_after_brace :
  JSON_parse sample_record = Returned sample_value
  /\ is_ComparisonData sample_value = true
  /\ match_braces ("Veja {nota}: " ++ sample_record)
     = Some ("{nota}: " ++ sample_record)%string
  /\ Gemini.jsonData ("Veja {nota}: " ++ sample_record) = JNull
  /\ Gemini.jsonData ("Veja {nota}: " ++ sample_record) <> sample_value.
Proof.
  repeat split; try (vm_compute; reflexivity).
  vm_compute. discriminate.
Qed.

(* ----------------------------------------------------------------- *)
(** ** C10: persona analysis without a JSON object *)

(** C10: when the text of the response has no brace span,
    [getPersonaAnalysis] returns, and what it returns is the object with
    winner "Indeterminado" and the text itself as the reason; the component
    then shows it as the persona result and stops loading. *)
Theorem persona_analysis_without_json (context : json)
    (personaLabel : string) (response : Gemini.GenerateContentResponse) :
  let text := Gemini.or_else (Gemini.text response) "" in
  let verdict :=
    JObject [ (units "winner", JString (units "Indeterminado"));
              (units "reason", JString (units text)) ] in
  ~ brace_span text ->
  Gemini.getPersonaAnalysis context personaLabel (Returned response)
  = Returned verdict
  /\ forall st : ComparisonResults.State,
       let st1 :=
         ComparisonResults.handlePersonaSelect_settle
           (Gemini.getPersonaAnalysis context personaLabel
              (Returned response)) st in
       ComparisonResults.personaResult st1 = Some verdict
       /\ ComparisonResults.loadingPersona st1 = false
       /\ ComparisonResults.selectedPersona st1
          = ComparisonResults.selectedPersona st.
Proof.
  intros text verdict H.
  assert (E : Gemini.getPersonaAnalysis context personaLabel
                (Returned response) = Returned verdict).
  { unfold Gemini.getPersonaAnalysis. fold text.
    now rewrite (match_braces_none text H). }
  split; [exact E|]. intros st. rewrite E. repeat split.
Qed.

(** A prose answer, and an answer with no text at all. *)
Lemma persona_analysis_without_json_witness :
  Gemini.getPersonaAnalysis sample_value "Gamer"
    (Returned {| Gemini.candidates := None;
                 Gemini.text := Some "O produto A vence." |})
  = Returned (JObject
      [ (units "winner", JString (units "Indeterminado"));
        (units "reason", JString (units "O produto A vence.")) ]).
Proof.
  apply (persona_analysis_without_json sample_value "Gamer"
           {| Gemini.candidates := None;
              Gemini.text := Some "O produto A vence." |}).
  apply match_braces_None_iff. reflexivity.
Defined.

(* ----------------------------------------------------------------- *)
(** ** C7: grounding sources *)

(** The web references of the chunks, in order. *)
Lemma push_sources_map (chunks : list Gemini.GroundingChunk) :
  Gemini.push_sources chunks
  = map (fun w => {| title := Gemini.or_else (Gemini.web_title w) "Fonte Web";
                     uri := Gemini.web_uri w |})
        (flat_map (fun chunk => match Gemini.web chunk with
                                | Some w => [w]
                                | None => []
                                end) chunks).
Proof.
  induction chunks as [|chunk more IH]; simpl; [reflexivity|].
  destruct (Gemini.web chunk); simpl; now rewrite IH.
Qed.

(** C7, as the code has it: the sources are the web references of the
    chunks, one source for each and in their order; a chunk without a web
    reference gives none.  The title is the reference's, or "Fonte Web"
    when that is missing or empty, so no source has an empty title.  The
    URI is copied as it is: a source has a usable URI exactly when its
    reference has one. *)
Theorem sources_of_chunks (response : Gemini.GenerateContentResponse)
    (chunks : list Gemini.GroundingChunk) :
  Gemini.groundingChunks_of response = Some chunks ->
  let refs := flat_map (fun chunk => match Gemini.web chunk with
                                     | Some w => [w]
                                     | None => []
                                     end) chunks in
  let result := Gemini.sources_of response in
  map uri result = map Gemini.web_uri refs
  /\ map title result
     = map (fun w => match Gemini.web_title w with
                     | Some (String c t) => String c t
                     | _ => "Fonte Web"
                     end) refs
  /\ Forall (fun source => truthy_string (title source) = true) result
  /\ (Forall (fun source => usable_uri (uri source) = true) result
      <-> Forall (fun w => usable_uri (Gemini.web_uri w) = true) refs).
Proof.
  intros Hc refs result. unfold result, Gemini.sources_of. rewrite Hc.
  rewrite push_sources_map. fold refs. clearbody refs.
  repeat split.
  - rewrite map_map. reflexivity.
  - rewrite map_map. apply map_ext. intros w. simpl.
    destruct (Gemini.web_title w) as [[|c t]|]; reflexivity.
  - apply Forall_map, Forall_forall. intros w _. simpl.
    destruct (Gemini.web_title w) as [[|c t]|]; reflexivity.
  - intros H. apply Forall_map in H. exact H.
  - intros H. apply Forall_map. exact H.
Qed.

(** A response of three chunks: a cited page, a chunk that is not a web
    reference, a page without title. *)
Lemma sources_of_chunks_witness :
  map title
    (Gemini.sources_of
       (response_with
          [ web_chunk (Some "Loja") (Some "https://a.example");
            {| Gemini.web := None |};
            web_chunk None (Some "https://b.example") ]
          None))
  = ["Loja"; "Fonte Web"].
Proof.
  exact (proj1 (proj2 (sources_of_chunks
           (response_with
              [ web_chunk (Some "Loja") (Some "https://a.example");
                {| Gemini.web := None |};
                web_chunk None (Some "https://b.example") ]
              None)
           [ web_chunk (Some "Loja") (Some "https://a.example");
             {| Gemini.web := None |};
             web_chunk None (Some "https://b.example") ]
           eq_refl))).
Defined.

(** C7, as stated, fails: a web reference without a URI is not dropped.
    Its source is returned with no URI. *)
Lemma source_without_uri_is_kept :
  let response := response_with [ web_chunk (Some "Loja") None ] None in
  Gemini.sources_of response = [ {| title := "Loja"; uri := None |} ]
  /\ ~ Forall (fun source => usable_uri (uri source) = true)
         (Gemini.sources_of response).
Proof.
  split; [reflexivity|].
  intros H. inversion H as [|x l Hx Hl]. discriminate Hx.
Qed.

(* ----------------------------------------------------------------- *)
(** ** C6: overlapping persona selections *)

Lemma run_app (data : json) (evs evs1 : list ComparisonResults.event)
    (st : ComparisonResults.State) :
  ComparisonResults.run data (evs ++ evs1) st
  = ComparisonResults.run data evs1 (ComparisonResults.run data evs st).
Proof. apply fold_left_app. Qed.

Lemma selectedPersona_step (data : json) (st : ComparisonResults.State)
    (ev : ComparisonResults.event) :
  ComparisonResults.selectedPersona (ComparisonResults.step data st ev)
  = last_selected [ev] (ComparisonResults.selectedPersona st).
Proof.
  destruct ev as [l i b|i [r|e]]; simpl; try reflexivity.
  destruct (truthy data); reflexivity.
Qed.

(** C6, as the code has it: nothing compares persona ids when a response
    arrives.  The selected persona is that of the last selection, and a
    response that arrives is shown whatever request it belongs to: after
    any events, the result shown is the response that arrived last. *)
Theorem persona_responses_apply_in_arrival_order (data : json)
    (evs : list ComparisonResults.event) (st : ComparisonResults.State)
    (personaId : string) (response : json) :
  let before := ComparisonResults.run data evs st in
  let after :=
    ComparisonResults.run data
      (evs ++ [ComparisonResults.Settled personaId (Returned response)]) st in
  ComparisonResults.selectedPersona before
  = last_selected evs (ComparisonResults.selectedPersona st)
  /\ ComparisonResults.selectedPersona after
     = ComparisonResults.selectedPersona before
  /\ ComparisonResults.personaResult after = Some response
  /\ ComparisonResults.loadingPersona after = false.
Proof.
  intros before after. unfold after. rewrite run_app. fold before.
  repeat split. unfold before. clear.
  revert st. induction evs as [|ev evs IH]; intros st; [reflexivity|].
  simpl. rewrite IH, selectedPersona_step. reflexivity.
Qed.

(** C6, as stated, fails: persona p1 is selected, then persona p2; the
    answer for p2 arrives, then the answer for p1.  The late answer for p1
    replaces the one for p2 although p2 is the persona selected. *)
Lemma stale_persona_response_overwrites :
  let st :=
    ComparisonResults.run sample_value
      [ ComparisonResults.Selected "Gamer" "p1" true;
        ComparisonResults.Selected "Aluno" "p2" true;
        ComparisonResults.Settled "p2" (Returned (verdict "B" "para p2"));
        ComparisonResults.Settled "p1" (Returned (verdict "A" "para p1")) ]
      (ComparisonResults.initial None) in
  ComparisonResults.selectedPersona st = Some "p2"%string
  /\ ComparisonResults.personaResult st = Some (verdict "A" "para p1")
  /\ ComparisonResults.personaResult st <> Some (verdict "B" "para p2").
Proof.
  repeat split. vm_compute. discriminate.
Qed.

(* ----------------------------------------------------------------- *)
(** ** The search history *)

Section History.
Variable q : string.

Let other (item : HistoryItem.t) : bool :=
  negb (HistoryItem.query item =? q)%string.

Lemma updateHistory_cons (now : Z) (prev : list HistoryItem.t) :
  App.updateHistory q now prev = entry q now :: firstn 19 (filter other prev).
Proof. reflexivity. Qed.

Lemma count_query_others (l : list HistoryItem.t) :
  Forall (fun item => other item = true) l -> count_query q l = 0%nat.
Proof.
  unfold count_query, other. induction 1 as [|x l Hx _ IH]; [reflexivity|].
  simpl. apply negb_true_iff in Hx. now rewrite Hx.
Qed.

Lemma filter_others (l : list HistoryItem.t) :
  Forall (fun item => other item = true) l -> filter other l = l.
Proof.
  induction 1 as [|x l Hx _ IH]; [reflexivity|].
  simpl. now rewrite Hx, IH.
Qed.

Lemma others_of_count (l : list HistoryItem.t) :
  count_query q l = 0%nat -> Forall (fun item => other item = true) l.
Proof.
  unfold count_query, other. induction l as [|x l IH]; simpl; [constructor|].
  destruct (HistoryItem.query x =? q)%string eqn:E; simpl; [discriminate|].
  intros H. constructor; [now rewrite E | now apply IH].
Qed.

Lemma filter_other_entry (t : Z) (l : list HistoryItem.t) :
  filter other (entry q t :: l) = filter other l.
Proof. unfold other. simpl. now rewrite String.eqb_refl. Qed.

Lemma count_query_entry (t : Z) (l : list HistoryItem.t) :
  count_query q (entry q t :: l) = S (count_query q l).
Proof. unfold count_query. simpl. now rewrite String.eqb_refl. Qed.

Lemma filter_other_all (l : list HistoryItem.t) :
  Forall (fun item => other item = true) (filter other l).
Proof. apply Forall_forall. intros x Hx. now apply filter_In in Hx. Qed.

Lemma Forall_firstn {A : Type} (P : A -> Prop) (n : nat) (l : list A) :
  Forall P l -> Forall P (firstn n l).
Proof.
  intros H. apply Forall_forall. intros x Hx.
  rewrite Forall_forall in H. apply H.
  rewrite <- (firstn_skipn n l). apply in_or_app. now left.
Qed.

Lemma filter_length_le {A : Type} (f : A -> bool) (l : list A) :
  (List.length (filter f l) <= List.length l)%nat.
Proof.
  induction l as [|x l IH]; simpl; [lia|]. destruct (f x); simpl; lia.
Qed.

Lemma updateHistory_length (now : Z) (prev : list HistoryItem.t) :
  (List.length (App.updateHistory q now prev) <= 20)%nat.
Proof.
  rewrite updateHistory_cons. cbn [List.length].
  pose proof (firstn_le_length 19 (filter other prev)). lia.
Qed.

End History.

(** C3: recording the query [q] at time [t1] removes every entry for [q]
    and puts the entry [(q, t1)] at position 0: the result is the new
    entry followed by the first 19 of the other entries of the history, in
    their order, and by all of them when they are less than 20 (so also
    on a history of 20 entries that holds [q]).  No entry for [q] is left
    but the new one.  Recording [q] again at [t2] leaves exactly one entry
    for [q], at position 0 with the timestamp [t2], and the rest as it
    was. *)
Theorem record_moves_query_to_front (history : list HistoryItem.t)
    (q : string) (t1 t2 : Z) :
  let once := App.updateHistory q t1 history in
  let twice := App.updateHistory q t2 once in
  let others :=
    filter (fun item => negb (HistoryItem.query item =? q)%string) history in
  once = entry q t1 :: firstn 19 others
  /\ ((List.length others < 20)%nat -> once = entry q t1 :: others)
  /\ ((List.length history < 20)%nat -> once = entry q t1 :: others)
  /\ Forall (fun item => HistoryItem.query item <> q) (tl once)
  /\ nth_error once 0 = Some (entry q t1)
  /\ count_query q once = 1%nat
  /\ nth_error twice 0 = Some (entry q t2)
  /\ count_query q twice = 1%nat
  /\ twice = entry q t2 :: tl once
  /\ twice = entry q t2 :: firstn 19 others.
Proof.
  intros once twice others.
  assert (Ho : once = entry q t1 :: firstn 19 others) by reflexivity.
  assert (Hk : Forall (fun item =>
                         negb (HistoryItem.query item =? q)%string = true)
                      (firstn 19 others)).
  { apply Forall_firstn, filter_other_all. }
  assert (Hc : forall t l,
             Forall (fun item =>
                       negb (HistoryItem.query item =? q)%string = true) l ->
             count_query q (entry q t :: l) = 1%nat).
  { intros t l Hl. rewrite count_query_entry.
    f_equal. now apply count_query_others. }
  assert (Ht : twice = entry q t2 :: firstn 19 others).
  { unfold twice. rewrite updateHistory_cons, Ho.
    rewrite filter_other_entry, filter_others by exact Hk.
    f_equal. apply firstn_all2. rewrite length_firstn. lia. }
  assert (Hs : (List.length others < 20)%nat -> once = entry q t1 :: others).
  { intros L. rewrite Ho. f_equal. apply firstn_all2. lia. }
  split; [exact Ho|]. split; [exact Hs|]. split.
  { intros L. apply Hs.
    pose proof (filter_length_le
                  (fun item => negb (HistoryItem.query item =? q)%string)
                  history) as F.
    fold others in F. lia. }
  split.
  { rewrite Ho. cbn [tl]. revert Hk. apply Forall_impl. intros x Hx.
    apply negb_true_iff in Hx. now apply String.eqb_neq. }
  split; [now rewrite Ho|].
  split; [rewrite Ho; now apply Hc|].
  split; [now rewrite Ht|].
  split; [rewrite Ht; now apply Hc|].
  split; [now rewrite Ht, Ho | exact Ht].
Qed.

(** A history of 20 entries that holds the query in the middle: nothing
    but the old entry for the query goes. *)
Example record_on_full_history :
  let full := map (fun n => entry (string_of_list_ascii [ascii_of_nat (65 + n)])
                                  (Z.of_nat (100 - n)))
                  (seq 0 20) in
  App.updateHistory "K" 200 full
  = entry "K" 200
      :: filter (fun item => negb (HistoryItem.query item =? "K")%string) full
  /\ List.length (App.updateHistory "K" 200 full) = 20%nat.
Proof. split; reflexivity. Qed.

(** C4: on a history of at most 20 entries, recording a query leaves at
    most 20 entries, and so do clearing the history, deleting an item and
    every other event of a session; recording a query that is not among
    20 entries drops the last, oldest one and keeps the others. *)
Theorem history_never_exceeds_20 (st : App.State) (q : string) (now : Z) :
  (List.length (App.history st) <= 20)%nat ->
  (List.length (App.updateHistory q now (App.history st)) <= 20)%nat
  /\ (List.length (App.history (App.clearHistory st)) <= 20)%nat
  /\ (List.length (App.history (App.deleteHistoryItem q st)) <= 20)%nat
  /\ (forall ev, (List.length (App.history (Session.step st ev)) <= 20)%nat)
  /\ ((List.length (App.history st) = 20)%nat ->
      count_query q (App.history st) = 0%nat ->
      App.updateHistory q now (App.history st)
      = entry q now :: removelast (App.history st)).
Proof.
  intros L.
  assert (D : forall x,
             (List.length (App.history (App.deleteHistoryItem x st)) <= 20)%nat).
  { intros x. simpl.
    pose proof (filter_length_le
                  (fun item => negb (HistoryItem.query item =? x)%string)
                  (App.history st)). lia. }
  split; [apply updateHistory_length|].
  split; [simpl; lia|].
  split; [apply D|].
  split.
  - intros [sq|fq [r|e] t|u t|s|i| |x|]; cbn [Session.step].
    + destruct (App.handleSearch_start sq st) as [[fq st1]|] eqn:E;
        [|exact L].
      unfold App.handleSearch_start in E.
      destruct (negb _); [discriminate|]. now injection E as _ <-.
    + apply updateHistory_length.
    + exact L.
    + unfold App.toggleSave. destruct (App.result st) as [r|]; [|exact L].
      destruct (negb _); [exact L|].
      destruct (_ >=? 0); exact L.
    + exact L.
    + exact L.
    + simpl. lia.
    + apply D.
    + exact L.
  - intros L20 Hq. rewrite updateHistory_cons.
    rewrite filter_others by (now apply others_of_count).
    rewrite removelast_firstn_len, L20. reflexivity.
Qed.

(** A full history and a new query: the oldest entry goes. *)
Lemma history_never_exceeds_20_witness :
  let full := map (fun n => entry (string_of_list_ascii [ascii_of_nat (65 + n)])
                                  (Z.of_nat (100 - n)))
                  (seq 0 20) in
  App.updateHistory "novo" 200 full = entry "novo" 200 :: removelast full
  /\ List.length (App.updateHistory "novo" 200 full) = 20%nat.
Proof.
  split; [|reflexivity].
  refine (proj2 (proj2 (proj2 (proj2
    (history_never_exceeds_20
       {| App.query := ""; App.loadingState := IDLE; App.result := None;
          App.error := None;
          App.history :=
            map (fun n => entry (string_of_list_ascii [ascii_of_nat (65 + n)])
                                (Z.of_nat (100 - n))) (seq 0 20);
          App.savedComparisons := []; App.view := App.home |}
       "novo" 200 _)))) _ _); simpl; try reflexivity; lia.
Defined.

(* ----------------------------------------------------------------- *)
(** ** C8: a search that fails *)

(** C8: for a query that is not blank, when the model call is rejected,
    whatever the reason, [compareProducts] throws and the search ends in
    the state ERROR with the fixed message; the history, the saved
    comparisons and the empty result are as the start of the search left
    them.  The same holds when the failure arrives in any later state. *)
Theorem search_failure_is_generic_error (st : App.State)
    (searchQuery : option string) (reason : exn) (t_result t_history : Z) :
  let finalQuery := App.finalQuery searchQuery st in
  let st1 :=
    App.handleSearch searchQuery (Threw reason) t_result t_history st in
  truthy_string (trim finalQuery) = true ->
  Gemini.compareProducts finalQuery (Threw reason) t_result = Threw reason
  /\ App.loadingState st1 = ERROR
  /\ App.error st1 = Some App.errorMessage
  /\ App.history st1 = App.history st
  /\ App.savedComparisons st1 = App.savedComparisons st
  /\ App.result st1 = None
  /\ forall (later : App.State) (now : Z),
       let st2 :=
         App.handleSearch_settle finalQuery
           (Gemini.compareProducts finalQuery (Threw reason) t_result)
           now later in
       App.loadingState st2 = ERROR
       /\ App.error st2 = Some App.errorMessage
       /\ App.history st2 = App.history later.
Proof.
  intros finalQuery st1 H. unfold st1, App.handleSearch, App.handleSearch_start.
  fold finalQuery. rewrite H. simpl. repeat split.
Qed.

(** The query "A vs B" typed into an application that holds one history
    entry; the request is rejected with a quota message. *)
Lemma search_failure_is_generic_error_witness :
  let st :=
    {| App.query := "A vs B"; App.loadingState := IDLE;
       App.result := None; App.error := None;
       App.history := [entry "C vs D" 5];
       App.savedComparisons := []; App.view := App.home |} in
  let st1 := App.handleSearch None (Threw (Rejection "429 quota")) 10 11 st in
  App.loadingState st1 = ERROR
  /\ App.error st1 = Some App.errorMessage
  /\ App.history st1 = [entry "C vs D" 5].
Proof.
  pose proof (search_failure_is_generic_error
                {| App.query := "A vs B"; App.loadingState := IDLE;
                   App.result := None; App.error := None;
                   App.history := [entry "C vs D" 5];
                   App.savedComparisons := []; App.view := App.home |}
                None (Rejection "429 quota") 10 11 eq_refl)
    as (_ & H1 & H2 & H3 & _).
  exact (conj H1 (conj H2 H3)).
Defined.

(* ----------------------------------------------------------------- *)
(** ** C9: nothing to save without a record *)

(** C9: with no current result, or with a current result whose record is
    [null], [toggleSave] changes nothing; a raw-text result of
    [compareProducts] is such a result, so it is never saved. *)
Theorem toggleSave_without_record (uuid : string) (now : Z)
    (st : App.State) :
  (App.result st = None
   \/ exists r, App.result st = Some r /\ data r = JNull) ->
  App.toggleSave uuid now st = st
  /\ App.savedComparisons (App.toggleSave uuid now st)
     = App.savedComparisons st
  /\ forall query response t r,
       App.result st = Some r ->
       Gemini.compareProducts query (Returned response) t = Returned r ->
       rawText r <> None ->
       data r = JNull.
Proof.
  intros H.
  assert (E : App.toggleSave uuid now st = st).
  { unfold App.toggleSave. destruct H as [->|(r & -> & Hr)]; [reflexivity|].
    now rewrite Hr. }
  split; [exact E|]. split; [now rewrite E|].
  intros query response t r _ Hc Hraw.
  unfold Gemini.compareProducts in Hc. injection Hc as <-. simpl in *.
  set (text := Gemini.or_else (Gemini.text response) "") in *.
  unfold Gemini.jsonData in *.
  destruct (match_braces text) as [span|] eqn:Em; [|reflexivity].
  destruct (JSON_parse span) as [v|e] eqn:Ep; [|reflexivity].
  destruct (match_braces_shape _ _ Em) as (b & i & a & -> & _).
  destruct (JSON_parse_braced _ _ Ep) as [m ->]. now elim Hraw.
Qed.

(** The result of a search whose answer was prose only. *)
Lemma toggleSave_without_record_witness :
  let raw := {| data := JNull; sources := [];
                rawText := Some "Sem dados."; query := "A vs B";
                timestamp := Some 7 |} in
  let st := {| App.query := "A vs B"; App.loadingState := SUCCESS;
               App.result := Some raw; App.error := None;
               App.history := [entry "A vs B" 8];
               App.savedComparisons := []; App.view := App.home |} in
  App.savedComparisons (App.toggleSave "id-1" 9 st) = [].
Proof.
  refine (proj1 (proj2 (toggleSave_without_record "id-1" 9 _ _))).
  right. eexists. split; reflexivity.
Defined.

(* ----------------------------------------------------------------- *)
(** ** The saved comparisons *)

Lemma strict_eq_true (a b : option Z) : App.strict_eq a b = true <-> a = b.
Proof.
  destruct a as [x|], b as [y|]; simpl; split; intros H;
    try discriminate; try reflexivity.
  - apply Z.eqb_eq in H. now subst.
  - injection H as ->. apply Z.eqb_refl.
Qed.

(** Two results are the same for saving exactly when their queries and
    their timestamps are equal. *)
Lemma same_result_true (r : AnalysisResult) (item : SavedComparison) :
  App.same_result r item = true <-> key (base item) = key r.
Proof.
  unfold App.same_result, key. rewrite andb_true_iff, String.eqb_eq,
    strict_eq_true.
  split; [intros [-> ->]; reflexivity | intros [= -> ->]; now split].
Qed.

Lemma same_result_ext (r r1 : AnalysisResult) (item : SavedComparison) :
  key r = key r1 -> App.same_result r item = App.same_result r1 item.
Proof. unfold key, App.same_result. now intros [= -> ->]. Qed.

Lemma is_saved_in (r : AnalysisResult) (l : list SavedComparison) :
  is_saved r l = true <-> In (key r) (map (fun item => key (base item)) l).
Proof.
  unfold is_saved. rewrite existsb_exists, in_map_iff.
  split; intros (x & H1 & H2); exists x.
  - split; [now apply same_result_true | exact H1].
  - split; [exact H2 | now apply same_result_true].
Qed.

Section FindIndex.
Context {A : Type} (f : A -> bool).

Lemma findIndex_nonneg (l : list A) :
  (App.findIndex f l >=? 0) = existsb f l.
Proof.
  induction l as [|x l IH]; simpl; [reflexivity|].
  destruct (f x); simpl; [reflexivity|]. rewrite <- IH.
  destruct (App.findIndex f l <? 0) eqn:E; lia.
Qed.

Lemma filter_indexed_below (l : list A) (start k : Z) :
  k < start ->
  App.filter_indexed (fun _ i => negb (i =? k)) start l = l.
Proof.
  revert start. induction l as [|x l IH]; simpl; intros start H;
    [reflexivity|].
  replace (start =? k) with false by lia. simpl.
  now rewrite IH by lia.
Qed.

(** Filtering out the index found removes the first element found. *)
Lemma filter_indexed_findIndex (l : list A) (start : Z) :
  existsb f l = true ->
  App.filter_indexed
    (fun _ i => negb (i =? start + App.findIndex f l)) start l
  = remove_first f l.
Proof.
  revert start. induction l as [|x l IH]; simpl; intros start H;
    [discriminate|].
  destruct (f x); simpl in *.
  - replace (start =? start + 0) with true by lia. simpl.
    apply filter_indexed_below. lia.
  - pose proof (findIndex_nonneg l) as N. rewrite H in N.
    replace (App.findIndex f l <? 0) with false by lia.
    replace (start =? start + (App.findIndex f l + 1)) with false by lia.
    simpl. f_equal.
    replace (start + (App.findIndex f l + 1))
      with (start + 1 + App.findIndex f l) by lia.
    now apply IH.
Qed.

End FindIndex.

(** What [toggleSave] does to the list: it removes the first saved
    comparison with the identity of the current result, or, when there is
    none, puts a new one in front. *)
Lemma toggleSave_saved (uuid : string) (now : Z) (st : App.State)
    (r : AnalysisResult) :
  App.result st = Some r ->
  truthy (data r) = true ->
  App.savedComparisons (App.toggleSave uuid now st)
  = if is_saved r (App.savedComparisons st)
    then remove_first (App.same_result r) (App.savedComparisons st)
    else {| base := r; id := uuid; savedAt := now |}
           :: App.savedComparisons st.
Proof.
  intros Hr Ht. unfold App.toggleSave. rewrite Hr, Ht. simpl.
  rewrite findIndex_nonneg. fold (is_saved r (App.savedComparisons st)).
  destruct (is_saved r (App.savedComparisons st)) eqn:E; [|reflexivity].
  simpl. apply (filter_indexed_findIndex (App.same_result r) _ 0 E).
Qed.

Lemma toggleSave_result (uuid : string) (now : Z) (st : App.State) :
  App.result (App.toggleSave uuid now st) = App.result st.
Proof.
  unfold App.toggleSave. destruct (App.result st) as [r|] eqn:E;
    [|exact E].
  destruct (negb _); [exact E|]. now destruct (_ >=? 0).
Qed.

Lemma toggleSave_falsy (uuid : string) (now : Z) (st : App.State)
    (r : AnalysisResult) :
  App.result st = Some r -> truthy (data r) = false ->
  App.toggleSave uuid now st = st.
Proof. intros Hr Ht. unfold App.toggleSave. now rewrite Hr, Ht. Qed.

Section UniqueKeys.
Variable r : AnalysisResult.

Lemma keys_unique_tail (x : SavedComparison) (l : list SavedComparison) :
  keys_unique (x :: l) -> keys_unique l.
Proof. unfold keys_unique. simpl. now inversion 1. Qed.

Lemma keys_unique_head (x : SavedComparison) (l : list SavedComparison) :
  keys_unique (x :: l) -> App.same_result r x = true -> is_saved r l = false.
Proof.
  unfold keys_unique. simpl. inversion 1 as [|k ks Hk _]; subst.
  intros Hx. apply same_result_true in Hx.
  destruct (is_saved r l) eqn:E; [|reflexivity].
  apply is_saved_in in E. rewrite <- Hx in E. contradiction.
Qed.

Lemma count_saved_none (l : list SavedComparison) :
  is_saved r l = false -> count_saved r l = 0%nat.
Proof.
  unfold is_saved, count_saved. induction l as [|x l IH]; simpl;
    [reflexivity|].
  destruct (App.same_result r x); simpl; [discriminate | exact IH].
Qed.

(** With unique identities at most one saved comparison matches. *)
Lemma count_saved_le_1 (l : list SavedComparison) :
  keys_unique l -> (count_saved r l <= 1)%nat.
Proof.
  induction l as [|x l IH]; intros U; [unfold count_saved; simpl; lia|].
  unfold count_saved. simpl.
  destruct (App.same_result r x) eqn:E.
  - pose proof (count_saved_none l (keys_unique_head x l U E)) as C.
    unfold count_saved in C. simpl. lia.
  - apply IH. now apply keys_unique_tail in U.
Qed.

Lemma remove_first_in (l : list SavedComparison) (k : string * option Z) :
  In k (map (fun item => key (base item))
            (remove_first (App.same_result r) l)) ->
  In k (map (fun item => key (base item)) l).
Proof.
  induction l as [|x l IH]; simpl; [tauto|].
  destruct (App.same_result r x); simpl; [now right|].
  intros [H|H]; [now left | right; now apply IH].
Qed.

Lemma remove_first_unique (l : list SavedComparison) :
  keys_unique l -> keys_unique (remove_first (App.same_result r) l).
Proof.
  unfold keys_unique. induction l as [|x l IH]; simpl; [trivial|].
  inversion 1 as [|k ks Hk Hks]; subst.
  destruct (App.same_result r x); [exact Hks|].
  simpl. constructor; [|now apply IH].
  intros Hin. apply Hk. now apply remove_first_in.
Qed.

(** Once the match is removed, the result is no longer saved. *)
Lemma remove_first_not_saved (l : list SavedComparison) :
  keys_unique l -> is_saved r (remove_first (App.same_result r) l) = false.
Proof.
  induction l as [|x l IH]; intros U; [reflexivity|]. simpl.
  destruct (App.same_result r x) eqn:E.
  - now apply (keys_unique_head x l U).
  - unfold is_saved in *. simpl. rewrite E. simpl.
    apply IH. now apply keys_unique_tail in U.
Qed.

(** Results of another identity are saved or not as before. *)
Lemma remove_first_other (r1 : AnalysisResult)
    (l : list SavedComparison) :
  key r1 <> key r ->
  is_saved r1 (remove_first (App.same_result r) l) = is_saved r1 l.
Proof.
  intros Hk. unfold is_saved. induction l as [|x l IH]; [reflexivity|].
  simpl. destruct (App.same_result r x) eqn:E; simpl.
  - destruct (App.same_result r1 x) eqn:E1; [|reflexivity].
    exfalso. apply Hk. apply same_result_true in E, E1. congruence.
  - now rewrite IH.
Qed.

End UniqueKeys.

Lemma filter_unique (f : SavedComparison -> bool)
    (l : list SavedComparison) :
  keys_unique l -> keys_unique (filter f l).
Proof.
  unfold keys_unique. induction l as [|x l IH]; simpl; [trivial|].
  inversion 1 as [|k ks Hk Hks]; subst.
  destruct (f x); [|now apply IH].
  simpl. constructor; [|now apply IH].
  intros Hin. apply Hk. apply in_map_iff in Hin as (y & Hy & Hin).
  apply in_map_iff. exists y. split; [exact Hy|].
  now apply filter_In in Hin.
Qed.

Lemma toggleSave_unique (uuid : string) (now : Z) (st : App.State) :
  keys_unique (App.savedComparisons st) ->
  keys_unique (App.savedComparisons (App.toggleSave uuid now st)).
Proof.
  intros U. destruct (App.result st) as [r|] eqn:Hr;
    [|unfold App.toggleSave; now rewrite Hr].
  destruct (truthy (data r)) eqn:Ht;
    [|now rewrite (toggleSave_falsy uuid now st r Hr Ht)].
  rewrite (toggleSave_saved uuid now st r Hr Ht).
  destruct (is_saved r (App.savedComparisons st)) eqn:E.
  - now apply remove_first_unique.
  - unfold keys_unique. simpl. constructor; [|exact U].
    intros Hin. change (key r) with (key r) in Hin.
    apply is_saved_in in Hin. congruence.
Qed.

(** Every event of a session keeps the identities of the saved
    comparisons unique. *)
Lemma step_unique (st : App.State) (ev : Session.event) :
  keys_unique (App.savedComparisons st) ->
  keys_unique (App.savedComparisons (Session.step st ev)).
Proof.
  intros U. destruct ev as [sq|fq [r|e] t|u t|s|i| |x|]; cbn [Session.step];
    try exact U.
  - destruct (App.handleSearch_start sq st) as [[fq st1]|] eqn:E; [|exact U].
    unfold App.handleSearch_start in E.
    destruct (negb _); [discriminate|]. now injection E as _ <-.
  - now apply toggleSave_unique.
  - now apply filter_unique.
Qed.

Lemma run_unique (evs : list Session.event) (st : App.State) :
  keys_unique (App.savedComparisons st) ->
  keys_unique (App.savedComparisons (Session.run evs st)).
Proof.
  revert st. induction evs as [|ev evs IH]; intros st U; [exact U|].
  simpl. apply IH. now apply step_unique.
Qed.

Lemma is_saved_ext (r r1 : AnalysisResult) (l : list SavedComparison) :
  key r = key r1 -> is_saved r l = is_saved r1 l.
Proof.
  intros H. unfold is_saved. induction l as [|x l IH]; [reflexivity|].
  simpl. now rewrite IH, (same_result_ext r r1 x H).
Qed.

(** Toggling twice, from a list of unique identities. *)
Lemma toggleSave_twice_saved (st : App.State) (r r1 : AnalysisResult)
    (uuid1 uuid2 : string) (t1 t2 : Z) :
  keys_unique (App.savedComparisons st) ->
  App.result st = Some r ->
  is_saved r1 (App.savedComparisons
                 (App.toggleSave uuid2 t2 (App.toggleSave uuid1 t1 st)))
  = is_saved r1 (App.savedComparisons st).
Proof.
  intros U Hr. destruct (truthy (data r)) eqn:Ht;
    [|now rewrite !(toggleSave_falsy _ _ st r Hr Ht)].
  pose proof (toggleSave_result uuid1 t1 st) as Hr1. rewrite Hr in Hr1.
  rewrite (toggleSave_saved uuid2 t2 _ r Hr1 Ht).
  rewrite (toggleSave_saved uuid1 t1 st r Hr Ht).
  set (l := App.savedComparisons st) in *.
  destruct (is_saved r l) eqn:E.
  - rewrite (remove_first_not_saved r l U).
    unfold is_saved at 1. cbn [existsb]. fold (is_saved r1).
    destruct (App.same_result r1 {| base := r; id := uuid2; savedAt := t2 |})
      eqn:E1.
    + apply same_result_true in E1. simpl in E1.
      now rewrite <- (is_saved_ext r r1 l E1), E.
    + simpl. apply remove_first_other. intros Hk.
      assert (App.same_result r1
                {| base := r; id := uuid2; savedAt := t2 |} = true)
        by (apply same_result_true; now symmetry).
      congruence.
  - assert (S1 : App.same_result r
                   {| base := r; id := uuid1; savedAt := t1 |} = true)
      by (now apply same_result_true).
    unfold is_saved at 2. cbn [existsb]. rewrite S1. cbn [orb].
    cbn [remove_first]. now rewrite S1.
Qed.

(** C2: in every state a session reaches, with a current result [r],
    two calls of [toggleSave] leave every result saved or not saved as it
    was, the current one included; when [r] has a record, one call turns
    saved into not saved and back.  Being saved means that the pair of
    query and timestamp is among those of the list, whatever the ids; and
    before, between and after the two calls at most one saved comparison
    has the identity of [r]. *)
Theorem toggleSave_twice_restores_membership (evs : list Session.event)
    (r : AnalysisResult) (uuid1 uuid2 : string) (t1 t2 : Z) :
  let st := Session.run evs Session.initial in
  let st1 := App.toggleSave uuid1 t1 st in
  let st2 := App.toggleSave uuid2 t2 st1 in
  App.result st = Some r ->
  (forall r1, is_saved r1 (App.savedComparisons st2)
              = is_saved r1 (App.savedComparisons st))
  /\ App.isCurrentResultSaved st2 = App.isCurrentResultSaved st
  /\ (truthy (data r) = true ->
      is_saved r (App.savedComparisons st1)
      = negb (is_saved r (App.savedComparisons st)))
  /\ (forall l, is_saved r l = true
                <-> In (query r, timestamp r)
                       (map (fun item => (query (base item),
                                          timestamp (base item))) l))
  /\ (forall item uuid t,
        App.same_result r {| base := base item; id := uuid; savedAt := t |}
        = App.same_result r item)
  /\ (count_saved r (App.savedComparisons st) <= 1)%nat
  /\ (count_saved r (App.savedComparisons st1) <= 1)%nat
  /\ (count_saved r (App.savedComparisons st2) <= 1)%nat.
Proof.
  intros st st1 st2 Hr.
  assert (U : keys_unique (App.savedComparisons st))
    by (apply run_unique; constructor).
  assert (U1 : keys_unique (App.savedComparisons st1))
    by now apply toggleSave_unique.
  assert (U2 : keys_unique (App.savedComparisons st2))
    by now apply toggleSave_unique.
  assert (M : forall r1, is_saved r1 (App.savedComparisons st2)
                         = is_saved r1 (App.savedComparisons st)).
  { intros r1. now apply (toggleSave_twice_saved st r r1). }
  split; [exact M|]. split.
  { unfold App.isCurrentResultSaved. unfold st2, st1.
    rewrite !toggleSave_result, Hr. apply M. }
  split.
  { intros Ht. unfold st1. rewrite (toggleSave_saved uuid1 t1 st r Hr Ht).
    destruct (is_saved r (App.savedComparisons st)) eqn:E.
    - now apply remove_first_not_saved.
    - unfold is_saved. cbn [existsb].
      replace (App.same_result r _) with true; [reflexivity|].
      symmetry. now apply same_result_true. }
  split; [intros l; apply is_saved_in|].
  split; [reflexivity|].
  repeat split; now apply count_saved_le_1.
Qed.

(** The sample session: the result is saved; the first call removes it, the
    second saves it again under another id. *)
Lemma toggleSave_twice_restores_membership_witness :
  let st := Session.run sample_session Session.initial in
  let st2 := App.toggleSave "id-2" 14 (App.toggleSave "id-1" 13 st) in
  App.isCurrentResultSaved st = true
  /\ App.isCurrentResultSaved st2 = App.isCurrentResultSaved st
  /\ map id (App.savedComparisons st) = ["id-0"]
  /\ map id (App.savedComparisons st2) = ["id-2"].
Proof.
  split; [reflexivity|]. split; [|split; reflexivity].
  exact (proj1 (proj2 (toggleSave_twice_restores_membership
                         sample_session sample_result "id-1" "id-2" 13 14
                         eq_refl))).
Defined.

(* ----------------------------------------------------------------- *)
(** ** C5: the trend of the statistics *)

Lemma round_half_up_nearest (num den : Z) :
  0 < den -> nearest_integer num den (round_half_up num den).
Proof.
  intros H. unfold nearest_integer, round_half_up.
  pose proof (Z.div_mod (2 * num + den) (2 * den)) as D.
  pose proof (Z.mod_pos_bound (2 * num + den) (2 * den)) as B.
  nia.
Qed.

Lemma trend_exact_20 : trend_exact_upto 20 = true.
Proof. vm_compute. reflexivity. Qed.

(** For counts up to 20 the quotient and the product of doubles, rounded,
    give the exactly rounded percentage. *)
Lemma trendVal_exact (current previous : Z) :
  0 <= current <= 20 -> 0 <= previous <= 20 ->
  App.trendVal current previous
  = JSNumber.Integer (spec_trend current previous).
Proof.
  intros Hc Hp. pose proof trend_exact_20 as H. unfold trend_exact_upto in H.
  rewrite forallb_forall in H.
  specialize (H (Z.to_nat previous)). rewrite forallb_forall in H.
  assert (I : forall z, 0 <= z <= 20 -> In (Z.to_nat z) (seq 0 21)).
  { intros z Hz. apply in_seq. lia. }
  specialize (H (I _ Hp) (Z.to_nat current) (I _ Hc)).
  rewrite !Z2Nat.id in H by lia. unfold trend_exact_on in H.
  destruct (App.trendVal current previous) as [z| |]; try discriminate.
  apply Z.eqb_eq in H. now rewrite H.
Qed.

Lemma trendStr_signed (z : Z) :
  App.trendStr (JSNumber.Integer z) = signed_percent z.
Proof.
  unfold App.trendStr, signed_percent. simpl.
  destruct (Z.leb_spec 0 z), (Z.ltb_spec z 0); try lia; reflexivity.
Qed.

Lemma count_bounds {A : Type} (f : A -> bool) (l : list A) :
  0 <= App.count f l <= Z.of_nat (List.length l).
Proof.
  unfold App.count. pose proof (filter_length_le f l). lia.
Qed.

(** C5: for every history, period and time, with [current] the number of
    entries younger than the window and [previous] the number of entries
    in the window before it, the trend shown is the sign, the number and a
    percent sign, where the number is 100 or 0 when [previous] is 0
    ([current] positive or not) and otherwise [Math.round] of
    [(current - previous) / previous * 100] computed in doubles; on a
    history of at most 20 entries that is the integer nearest to the exact
    percentage.  With [previous = 0] and [current = 3] the trend is "+100%",
    with [previous = 4] and [current = 2] it is "-50%". *)
Theorem windowed_trend (history : list HistoryItem.t)
    (savedComparisons : list SavedComparison)
    (statsPeriod : App.StatsPeriod) (now : Z) :
  let window := App.duration statsPeriod in
  let age h := now - HistoryItem.timestamp h in
  let current :=
    Z.of_nat (List.length (filter (fun h => age h <? window) history)) in
  let previous :=
    Z.of_nat (List.length
                (filter (fun h => (window <=? age h) && (age h <? 2 * window))
                        history)) in
  let stats :=
    App.calculateRealStats history savedComparisons statsPeriod now in
  App.searches stats = current
  /\ App.trend stats = App.trendStr (App.trendVal current previous)
  /\ (previous = 0 -> current > 0 -> App.trend stats = "+100%"%string)
  /\ (previous = 0 -> current = 0 -> App.trend stats = "+0%"%string)
  /\ (previous > 0 ->
      App.trend stats
      = App.trendStr
          (JSNumber.Math_round
             (PrimFloat.mul
                (PrimFloat.div (JSNumber.of_Z (current - previous))
                               (JSNumber.of_Z previous))
                (JSNumber.of_Z 100))))
  /\ ((List.length history <= 20)%nat ->
      App.trend stats = signed_percent (spec_trend current previous)
      /\ (previous > 0 ->
          nearest_integer ((current - previous) * 100) previous
            (spec_trend current previous)))
  /\ (previous = 0 -> current = 3 -> App.trend stats = "+100%"%string)
  /\ (previous = 4 -> current = 2 -> App.trend stats = "-50%"%string).
Proof.
  intros window age current previous stats.
  assert (Ec : App.periodCount history window now = current) by reflexivity.
  assert (Ep : App.previousPeriodCount history window now = previous).
  { unfold App.previousPeriodCount, App.count, previous. do 2 f_equal.
    apply filter_ext. intros h. unfold age.
    rewrite Z.geb_leb. f_equal. f_equal. lia. }
  assert (Et : App.trend stats = App.trendStr (App.trendVal current previous)).
  { unfold stats, App.calculateRealStats. cbn [App.trend]. fold window.
    now rewrite Ec, Ep. }
  split; [exact Ec|]. split; [exact Et|]. rewrite Et.
  split; [intros -> H; unfold App.trendVal; simpl;
          destruct (Z.gtb_spec current 0); [reflexivity | lia]|].
  split; [intros -> ->; reflexivity|].
  split; [intros H; unfold App.trendVal;
          destruct (Z.eqb_spec previous 0); [lia | reflexivity]|].
  split.
  { intros L.
    pose proof (count_bounds (fun h => age h <? window) history) as Bc.
    pose proof (count_bounds
                  (fun h => (window <=? age h) && (age h <? 2 * window))
                  history) as Bp.
    unfold App.count in Bc, Bp. fold current in Bc. fold previous in Bp.
    rewrite trendVal_exact by lia. split; [apply trendStr_signed|].
    intros H. unfold spec_trend.
    destruct (Z.eqb_spec previous 0); [lia|].
    apply round_half_up_nearest. lia. }
  split; intros -> ->; vm_compute; reflexivity.
Qed.

(** Two searches in the last 24 hours and four in the 24 hours before. *)
Lemma windowed_trend_witness :
  App.trend (App.calculateRealStats sample_history [] App.P24h 200000000)
  = "-50%"%string.
Proof.
  exact (proj2 (proj2 (proj2 (proj2 (proj2 (proj2 (proj2
           (windowed_trend sample_history [] App.P24h 200000000)))))))
           eq_refl eq_refl).
Defined.

(** Beyond the bound of the history the product of doubles can miss a
    tie: 29 against 40 is -27.5 exactly and rounds to -27, but the doubles
    give -27.500000000000004 and the trend is -28. *)
Lemma trendVal_inexact_29_40 :
  App.trendVal 29 40 = JSNumber.Integer (-28)
  /\ spec_trend 29 40 = -27.
Proof. split; vm_compute; reflexivity. Qed.

(** The uniqueness of the identities is what the involution rests on: on
    a list that holds the identity of the current result twice, which no
    session builds, each call removes one of the two. *)
Remark toggleSave_twice_on_duplicates :
  let twin uuid := {| base := sample_result; id := uuid; savedAt := 12 |} in
  let st := {| App.query := "A vs B"; App.loadingState := SUCCESS;
               App.result := Some sample_result; App.error := None;
               App.history := [];
               App.savedComparisons := [twin "id-a"; twin "id-b"];
               App.view := App.home |} in
  ~ keys_unique (App.savedComparisons st)
  /\ App.savedComparisons
       (App.toggleSave "id-2" 14 (App.toggleSave "id-1" 13 st)) = [].
Proof.
  split; [|reflexivity].
  unfold keys_unique. simpl. inversion 1 as [|k ks Hk _]; subst.
  apply Hk. now left.
Qed.

(* ================================================================= *)
(** * Part III: more of the code *)

(* ----------------------------------------------------------------- *)
(** ** The span that is parsed *)

Lemma through_last_close_occurs (s : string) :
  through_last_close s = None -> occurs "}" s = false.
Proof.
  intros H. destruct (occurs "}" s) eqn:E; [|reflexivity].
  now apply through_last_close_some in E.
Qed.

Lemma through_last_close_last (s span : string) :
  through_last_close s = Some span ->
  exists inside after,
    span = (inside ++ "}")%string
    /\ s = (span ++ after)%string
    /\ occurs "}" after = false.
Proof.
  revert span. induction s as [|c s IH]; simpl; [discriminate|].
  intros span. destruct (through_last_close s) as [sp|] eqn:E.
  - intros [= <-]. destruct (IH sp eq_refl) as (i & a & -> & Hs & Ha).
    exists (String c i), a. repeat split; [|exact Ha].
    simpl. now rewrite <- Hs.
  - destruct (Ascii.eqb_spec c "}") as [->|_]; [|discriminate].
    intros [= <-]. exists EmptyString, s. repeat split.
    now apply through_last_close_occurs.
Qed.

Lemma match_braces_needs_close (s : string) :
  occurs "}" s = false -> match_braces s = None.
Proof.
  intros H. destruct (match_braces s) as [span|] eqn:E; [|reflexivity].
  destruct (match_braces_shape _ _ E) as (b & i & a & -> & ->).
  assert (T : occurs "}" (b ++ ("{" ++ i ++ "}") ++ a) = true).
  { rewrite occurs_app. apply orb_true_iff. right.
    rewrite occurs_app. apply orb_true_iff. left.
    exact (occurs_middle "}" (String "{" i) ""). }
  congruence.
Qed.

(** X1: what [text.match(/\{[\s\S]*\}/)] yields in [compareProducts] and
    [getPersonaAnalysis] is the part of the text from its first opening
    brace to its last closing brace, and it yields that whenever the last
    closing brace comes after the first opening brace. *)
Theorem match_braces_first_to_last (text span : string) :
  match_braces text = Some span
  <-> exists before inside after,
        text = (before ++ span ++ after)%string
        /\ span = ("{" ++ inside ++ "}")%string
        /\ occurs "{" before = false
        /\ occurs "}" after = false.
Proof.
  split.
  - revert span. induction text as [|c text IH]; simpl; [discriminate|].
    intros span H. destruct (Ascii.eqb_spec c "{") as [->|Hc].
    + destruct (through_last_close text) as [sp|] eqn:E.
      * injection H as <-.
        destruct (through_last_close_last _ _ E) as (i & a & -> & Ht & Ha).
        exists EmptyString, i, a. repeat split; [|exact Ha].
        simpl. now rewrite <- Ht.
      * rewrite match_braces_needs_close in H; [discriminate|].
        now apply through_last_close_occurs.
    + destruct (IH _ H) as (b & i & a & Ht & Hs & Hb & Ha).
      exists (String c b), i, a. repeat split; try assumption.
      * simpl. now rewrite <- Ht.
      * simpl. rewrite Hb. now apply Ascii.eqb_neq in Hc as ->.
  - intros (b & i & a & -> & -> & Hb & Ha).
    now apply match_braces_embedded.
Qed.

(* ----------------------------------------------------------------- *)
(** ** What [compareProducts] returns *)

Lemma jsonData_cases (text : string) :
  Gemini.jsonData text = JNull \/ exists m, Gemini.jsonData text = JObject m.
Proof.
  unfold Gemini.jsonData.
  destruct (match_braces text) as [span|] eqn:Em; [|now left].
  destruct (JSON_parse span) as [v|e] eqn:Ep; [|now left].
  destruct (match_braces_shape _ _ Em) as (b & i & a & -> & _).
  right. exact (JSON_parse_braced _ _ Ep).
Qed.

(** X2: once the model call has returned, [compareProducts] returns as
    well, whatever the text: a [SyntaxError] of [JSON.parse] does not get
    out.  The result carries the query and the time, and either a record
    that is a JSON object and no raw text, or no record and the whole text
    as raw text. *)
Theorem compareProducts_returns (query : string)
    (response : Gemini.GenerateContentResponse) (now : Z) :
  exists r,
    Gemini.compareProducts query (Returned response) now = Returned r
    /\ Types.query r = query
    /\ timestamp r = Some now
    /\ ((data r = JNull
         /\ rawText r = Some (Gemini.or_else (Gemini.text response) ""))
        \/ (exists m, data r = JObject m /\ rawText r = None)).
Proof.
  eexists. split; [reflexivity|]. cbn [Types.query timestamp data rawText].
  split; [reflexivity|]. split; [reflexivity|].
  destruct (jsonData_cases (Gemini.or_else (Gemini.text response) ""))
    as [E|[m E]]; rewrite E.
  - left. now split.
  - right. exists m. now split.
Qed.

(** X3: the record is missing exactly when the text has no brace span or
    [JSON.parse] throws on the span matched; without a brace span the raw
    text returned is the text of the response. *)
Theorem compareProducts_fallback (query : string)
    (response : Gemini.GenerateContentResponse) (now : Z) :
  let text := Gemini.or_else (Gemini.text response) "" in
  (Gemini.jsonData text = JNull
   <-> (~ brace_span text
        \/ exists span e, match_braces text = Some span
                          /\ JSON_parse span = Threw e))
  /\ (~ brace_span text ->
      Gemini.compareProducts query (Returned response) now
      = Returned {| data := JNull;
                    sources := Gemini.sources_of response;
                    rawText := Some text;
                    query := query;
                    timestamp := Some now |}).
Proof.
  intros text. split.
  - unfold Gemini.jsonData. split.
    + destruct (match_braces text) as [span|] eqn:Em.
      * destruct (JSON_parse span) as [v|e] eqn:Ep.
        -- intros ->. destruct (match_braces_shape _ _ Em)
             as (b & i & a & -> & _).
           destruct (JSON_parse_braced _ _ Ep) as [m Hm]. discriminate.
        -- intros _. right. now exists span, e.
      * intros _. left. now apply match_braces_None_iff.
    + intros [H|(span & e & -> & ->)]; [|reflexivity].
      now rewrite (match_braces_none _ H).
  - intros H. unfold Gemini.compareProducts. fold text.
    unfold Gemini.jsonData. now rewrite (match_braces_none _ H).
Qed.

(* ----------------------------------------------------------------- *)
(** ** What [getPersonaAnalysis] returns *)

(** X4: a JSON object text in a response whose prose has no opening brace
    before it and no closing brace after it is what [getPersonaAnalysis]
    returns, as [JSON.parse] reads it: nothing checks that it has a winner
    or a reason. *)
Theorem getPersonaAnalysis_round_trip (context : json) (personaLabel : string)
    (response : Gemini.GenerateContentResponse)
    (before inside after : string) (v : json) :
  let verdict_text := ("{" ++ inside ++ "}")%string in
  Gemini.text response = Some (before ++ verdict_text ++ after)%string ->
  occurs "{" before = false ->
  occurs "}" after = false ->
  JSON_parse verdict_text = Returned v ->
  Gemini.getPersonaAnalysis context personaLabel (Returned response)
  = Returned v.
Proof.
  intros vt Ht Hb Ha Hv. unfold Gemini.getPersonaAnalysis. rewrite Ht.
  unfold Gemini.or_else, vt in *.
  replace (truthy_string _) with true
    by (symmetry; apply truthy_string_embedded).
  rewrite match_braces_embedded by assumption. exact Hv.
Qed.

(** An answer that wraps an object without a winner. *)
Lemma getPersonaAnalysis_round_trip_witness :
  Gemini.getPersonaAnalysis sample_value "Gamer"
    (Returned (response_with [] (Some "Resposta: {} (fim)")))
  = Returned (JObject []).
Proof.
  apply (getPersonaAnalysis_round_trip sample_value "Gamer"
           (response_with [] (Some "Resposta: {} (fim)"))
           "Resposta: " "" " (fim)" (JObject [])); reflexivity.
Defined.



(* ----------------------------------------------------------------- *)
(** ** The chat about a comparison *)

Lemma or_else_truthy (a : option string) (b : string) :
  truthy_string b = true -> truthy_string (Gemini.or_else a b) = true.
Proof.
  intros H. unfold Gemini.or_else. destruct a as [s|]; [|exact H].
  destruct (truthy_string s) eqn:E; [exact E | exact H].
Qed.

(** [refineComparison] always answers with something to show. *)
Lemma refineComparison_not_empty (context : json) (userQuestion : string)
    (response : completion Gemini.GenerateContentResponse) :
  truthy_string (Gemini.refineComparison context userQuestion response) = true.
Proof.
  destruct response as [r|e]; simpl; [|reflexivity].
  now apply or_else_truthy.
Qed.

Lemma trim_start_blank (s : string) :
  all_space s = true -> trim_start s = EmptyString.
Proof.
  unfold all_space. induction s as [|c s IH]; simpl; [reflexivity|].
  intros H. apply andb_true_iff in H as [Hc Hs]. rewrite Hc. now apply IH.
Qed.

Lemma trim_start_not_blank (s : string) :
  all_space s = false ->
  exists c rest, trim_start s = String c rest /\ is_trim_space c = false.
Proof.
  unfold all_space. induction s as [|c s IH]; simpl; [discriminate|].
  destruct (is_trim_space c) eqn:E; simpl; [exact IH|].
  intros _. now exists c, s.
Qed.

(** A string trims to the empty string exactly when all its characters
    are white space. *)
Lemma trim_truthy (s : string) :
  truthy_string (trim s) = negb (all_space s).
Proof.
  unfold trim. destruct (all_space s) eqn:E.
  - now rewrite trim_start_blank.
  - destruct (trim_start_not_blank s E) as (c & rest & -> & Hc).
    simpl. rewrite Hc. now destruct (trim_end rest).
Qed.

(** X6: a question that is not blank, asked about a result with a record,
    adds exactly two messages to the chat, the question as it was typed
    and then an answer that is never empty: the text of the model, an
    apology when the model gave no text, a fixed error text when the call
    was rejected.  The chat is then no longer refining.  A blank question,
    or a result without a record, changes nothing. *)
Theorem submitRefine_appends_question_and_answer (data : json)
    (msg : string) (response : completion Gemini.GenerateContentResponse)
    (st : ComparisonResults.Chat) :
  let st1 := ComparisonResults.submitRefine data msg response st in
  (all_space msg = false -> truthy data = true ->
   exists answer,
     ComparisonResults.chatMessages st1
     = ComparisonResults.chatMessages st
         ++ [ {| ComparisonResults.role := ComparisonResults.user;
                 ComparisonResults.text := msg |};
              {| ComparisonResults.role := ComparisonResults.model;
                 ComparisonResults.text := answer |} ]
     /\ truthy_string answer = true
     /\ answer = match response with
                 | Returned r =>
                     match Gemini.text r with
                     | Some (String c t) => String c t
                     | _ => Gemini.refineApology
                     end
                 | Threw _ => Gemini.refineError
                 end
     /\ ComparisonResults.isRefining st1 = false)
  /\ (all_space msg = true \/ truthy data = false -> st1 = st).
Proof.
  intros st1. unfold st1, ComparisonResults.submitRefine,
    ComparisonResults.submitRefine_start. rewrite trim_truthy, negb_involutive.
  split.
  - intros -> ->. simpl.
    exists (Gemini.refineComparison data msg response).
    split; [now rewrite <- app_assoc|].
    split; [apply refineComparison_not_empty|]. split; [|reflexivity].
    destruct response as [r|e]; [|reflexivity]. simpl.
    now destruct (Gemini.text r) as [[|c t]|].
  - intros [->| ->]; [reflexivity|]. now rewrite orb_true_r.
Qed.

(** A question to a model that answers with no text. *)
Lemma submitRefine_appends_question_and_answer_witness :
  map ComparisonResults.text
    (ComparisonResults.chatMessages
       (ComparisonResults.submitRefine sample_value "Qual dura mais?"
          (Returned (response_with [] None))
          {| ComparisonResults.chatInput := "Qual dura mais?";
             ComparisonResults.chatMessages := [];
             ComparisonResults.isRefining := false |}))
  = ["Qual dura mais?"; Gemini.refineApology].
Proof.
  destruct (proj1 (submitRefine_appends_question_and_answer
                     sample_value "Qual dura mais?"
                     (Returned (response_with [] None))
                     {| ComparisonResults.chatInput := "Qual dura mais?";
                        ComparisonResults.chatMessages := [];
                        ComparisonResults.isRefining := false |})
                  eq_refl eq_refl) as (answer & H & _ & -> & _).
  now rewrite H.
Defined.

(* ----------------------------------------------------------------- *)
(** ** Searches *)

(** X7: a query of white space only (the typed one, when no query is
    passed or the one passed is empty) is ignored: the state stays as it
    is whatever the model would answer.  Any other query starts a search:
    the state is LOADING with the query in the field, no result and no
    error, and the history and the saved comparisons untouched. *)
Theorem blank_query_is_ignored (searchQuery : option string)
    (response : completion Gemini.GenerateContentResponse)
    (t_result t_history : Z) (st : App.State) :
  let finalQuery := App.finalQuery searchQuery st in
  (all_space finalQuery = true ->
   App.handleSearch searchQuery response t_result t_history st = st
   /\ App.handleSearch_start searchQuery st = None)
  /\ (all_space finalQuery = false ->
      exists st1,
        App.handleSearch_start searchQuery st = Some (finalQuery, st1)
        /\ App.loadingState st1 = LOADING
        /\ App.query st1 = finalQuery
        /\ App.result st1 = None
        /\ App.error st1 = None
        /\ App.history st1 = App.history st
        /\ App.savedComparisons st1 = App.savedComparisons st)
  /\ finalQuery = match searchQuery with
                  | Some (String c s) => String c s
                  | _ => App.query st
                  end.
Proof.
  intros finalQuery.
  unfold App.handleSearch, App.handleSearch_start. fold finalQuery.
  rewrite trim_truthy, negb_involutive. repeat split.
  - now rewrite H.
  - now rewrite H.
  - intros ->. eexists. repeat split.
  - unfold finalQuery, App.finalQuery, Gemini.or_else.
    now destruct searchQuery as [[|c s]|].
Qed.

(** Spaces and a tab typed into the field. *)
Lemma blank_query_is_ignored_witness :
  let st := {| App.query := String " " (String "009" " ");
               App.loadingState := IDLE; App.result := None;
               App.error := None; App.history := [entry "A vs B" 5];
               App.savedComparisons := []; App.view := App.home |} in
  App.handleSearch None (Returned (response_with [] (Some "{}"))) 10 11 st
  = st.
Proof.
  intros st.
  exact (proj1 (proj1 (blank_query_is_ignored None
                         (Returned (response_with [] (Some "{}"))) 10 11 st)
                      eq_refl)).
Defined.

(* ----------------------------------------------------------------- *)
(** ** More on the history *)

Section MapNoDup.
Context {A B : Type} (f : A -> B).

Lemma NoDup_map_filter (g : A -> bool) (l : list A) :
  NoDup (map f l) -> NoDup (map f (filter g l)).
Proof.
  induction l as [|x l IH]; simpl; [trivial|].
  inversion 1 as [|k ks Hk Hks]; subst.
  destruct (g x); [|now apply IH].
  simpl. constructor; [|now apply IH].
  intros Hin. apply Hk. apply in_map_iff in Hin as (y & Hy & Hin).
  apply in_map_iff. exists y. split; [exact Hy|].
  now apply filter_In in Hin.
Qed.

Lemma NoDup_map_firstn (n : nat) (l : list A) :
  NoDup (map f l) -> NoDup (map f (firstn n l)).
Proof.
  revert n. induction l as [|x l IH]; intros [|n]; simpl; try constructor.
  - inversion H as [|k ks Hk Hks]; subst.
    intros Hin. apply Hk. apply in_map_iff in Hin as (y & Hy & Hin).
    apply in_map_iff. exists y. split; [exact Hy|].
    rewrite <- (firstn_skipn n l). apply in_or_app. now left.
  - apply IH. now inversion H.
Qed.

End MapNoDup.

Lemma others_queries (q : string) (h : list HistoryItem.t) :
  ~ In q (map HistoryItem.query (others q h)).
Proof.
  intros Hin. apply in_map_iff in Hin as (x & Hx & Hin).
  apply filter_In in Hin as [_ Hin]. rewrite Hx, String.eqb_refl in Hin.
  discriminate.
Qed.

Lemma updateHistory_unique (q : string) (now : Z) (h : list HistoryItem.t) :
  queries_unique h -> queries_unique (App.updateHistory q now h).
Proof.
  intros U. rewrite updateHistory_cons. unfold queries_unique.
  cbn [map entry HistoryItem.query]. constructor.
  - intros Hin. apply (others_queries q h).
    apply in_map_iff in Hin as (x & Hx & Hin). apply in_map_iff.
    exists x. split; [exact Hx|]. unfold others.
    rewrite <- (firstn_skipn 19 (filter _ h)). apply in_or_app. now left.
  - now apply NoDup_map_firstn, NoDup_map_filter.
Qed.

Lemma count_query_unique (q : string) (h : list HistoryItem.t) :
  queries_unique h -> (count_query q h <= 1)%nat.
Proof.
  unfold queries_unique, count_query. induction h as [|x h IH]; simpl; [lia|].
  inversion 1 as [|k ks Hk Hks]; subst.
  destruct (String.eqb_spec (HistoryItem.query x) q) as [E|E];
    [|now apply IH].
  simpl. replace (filter _ h) with (@nil HistoryItem.t); [simpl; lia|].
  symmetry. clear IH Hks H. induction h as [|y h IH]; [reflexivity|]. simpl.
  destruct (String.eqb_spec (HistoryItem.query y) q) as [Ey|Ey].
  - exfalso. apply Hk. left. congruence.
  - apply IH. intros Hin. apply Hk. now right.
Qed.

(** X8: in every state of a session no two entries of the history have
    the same query: a query is in the history at most once, however often
    it was searched. *)
Theorem history_queries_unique (evs : list Session.event) (q : string) :
  let st := Session.run evs Session.initial in
  queries_unique (App.history st)
  /\ (count_query q (App.history st) <= 1)%nat.
Proof.
  intros st.
  assert (U : queries_unique (App.history st)).
  { unfold st. generalize Session.initial,
      (NoDup_nil string : queries_unique (App.history Session.initial)).
    induction evs as [|ev evs IH]; intros s U; [exact U|].
    simpl. apply IH.
    destruct ev as [sq|fq [r|e] t|u t|sv|i| |x|]; cbn [Session.step];
      try exact U.
    - destruct (App.handleSearch_start sq s) as [[fq s1]|] eqn:E; [|exact U].
      unfold App.handleSearch_start in E.
      destruct (negb _); [discriminate|]. now injection E as _ <-.
    - now apply updateHistory_unique.
    - unfold App.toggleSave. destruct (App.result s) as [r|]; [|exact U].
      destruct (negb _); [exact U|]. now destruct (_ >=? 0).
    - constructor.
    - now apply NoDup_map_filter. }
  split; [exact U | now apply count_query_unique].
Qed.

Lemma others_fixed (q : string) (l : list HistoryItem.t) :
  Forall (fun item => negb (HistoryItem.query item =? q)%string = true) l ->
  others q l = l.
Proof. apply filter_others. Qed.

Lemma others_all (q : string) (l : list HistoryItem.t) :
  Forall (fun item => negb (HistoryItem.query item =? q)%string = true)
         (others q l).
Proof. apply filter_other_all. Qed.

Lemma others_entry (q a : string) (t : Z) (l : list HistoryItem.t) :
  a <> q -> others q (entry a t :: l) = entry a t :: others q l.
Proof.
  intros H. unfold others. simpl.
  now destruct (String.eqb_spec a q).
Qed.

Lemma count_query_others_le (q a : string) (l : list HistoryItem.t) :
  (count_query q (others a l) <= count_query q l)%nat.
Proof.
  unfold count_query, others. induction l as [|x l IH]; simpl; [lia|].
  destruct (negb _); simpl; destruct (_ =? q)%string; simpl; lia.
Qed.

(** Cutting after [k + 1] entries before removing the one entry for [q]
    leaves the same first [k] entries as removing it first. *)
Lemma firstn_others_firstn (q : string) (k : nat) (l : list HistoryItem.t) :
  (count_query q l <= 1)%nat ->
  firstn k (others q (firstn (S k) l)) = firstn k (others q l).
Proof.
  revert k. induction l as [|x l IH]; intros k C; [reflexivity|].
  cbn [firstn]. unfold others in *. cbn [filter].
  unfold count_query in C. cbn [filter] in C.
  destruct (String.eqb_spec (HistoryItem.query x) q) as [E|E]; cbn [negb].
  - simpl in C.
    assert (F : Forall (fun item =>
                          negb (HistoryItem.query item =? q)%string = true) l).
    { apply others_of_count. unfold count_query. lia. }
    rewrite (filter_others q l F).
    rewrite (filter_others q (firstn k l)) by now apply Forall_firstn.
    apply firstn_all2. rewrite length_firstn. lia.
  - destruct k as [|k]; [reflexivity|]. cbn [firstn]. f_equal.
    apply IH. exact C.
Qed.

(** X9: searching [a], then another query [c], then [a] again leaves [a]
    in front with its last timestamp and [c] behind it with its own, and
    after them the 18 latest entries for other queries; after the second
    search it was [c] in front of [a].  The history is one that holds [c]
    at most once, as every history of a session does. *)
Theorem research_moves_query_to_front (h : list HistoryItem.t)
    (a c : string) (t1 t2 t3 : Z) :
  a <> c ->
  (count_query c h <= 1)%nat ->
  let rest := firstn 18 (others c (others a h)) in
  App.updateHistory c t2 (App.updateHistory a t1 h)
  = entry c t2 :: entry a t1 :: rest
  /\ App.updateHistory a t3
       (App.updateHistory c t2 (App.updateHistory a t1 h))
     = entry a t3 :: entry c t2 :: rest.
Proof.
  intros Hac Hc rest.
  assert (E2 : App.updateHistory c t2 (App.updateHistory a t1 h)
               = entry c t2 :: entry a t1 :: rest).
  { rewrite !updateHistory_cons. fold (others a h).
    fold (others c (entry a t1 :: firstn 19 (others a h))).
    rewrite others_entry by exact Hac. rewrite firstn_cons. do 2 f_equal.
    apply firstn_others_firstn.
    pose proof (count_query_others_le c a h). lia. }
  split; [exact E2|]. rewrite E2, updateHistory_cons.
  fold (others a (entry c t2 :: entry a t1 :: rest)).
  rewrite others_entry by congruence.
  unfold others at 1. rewrite filter_other_entry. fold (others a rest).
  assert (F : Forall (fun item =>
                        negb (HistoryItem.query item =? a)%string = true) rest).
  { apply Forall_firstn. unfold others at 1.
    apply Forall_forall. intros x Hx. apply filter_In in Hx as [Hx _].
    revert x Hx. apply Forall_forall. apply others_all. }
  rewrite (others_fixed a rest F). rewrite firstn_cons. do 2 f_equal.
  apply firstn_all2. unfold rest. apply firstn_le_length.
Qed.

(** The scenario on an empty history. *)
Lemma research_moves_query_to_front_witness :
  App.updateHistory "A vs B" 3
    (App.updateHistory "C vs D" 2 (App.updateHistory "A vs B" 1 []))
  = [entry "A vs B" 3; entry "C vs D" 2].
Proof.
  refine (proj2 (research_moves_query_to_front [] "A vs B" "C vs D" 1 2 3
                   _ _)); [discriminate | unfold count_query; simpl; lia].
Defined.

(** X10: on a history of less than 20 entries, deleting a query right
    after a successful search for it gives the history that deleting it
    before the search would have given; when the query was not in the
    history, that is the history as it was. *)
Theorem delete_after_search (st : App.State) (q : string)
    (r : AnalysisResult) (now : Z) :
  (List.length (App.history st) < 20)%nat ->
  let st1 := App.handleSearch_settle q (Returned r) now st in
  App.history (App.deleteHistoryItem q st1)
  = App.history (App.deleteHistoryItem q st)
  /\ (count_query q (App.history st) = 0%nat ->
      App.history (App.deleteHistoryItem q st1) = App.history st).
Proof.
  intros L st1.
  assert (E : App.history (App.deleteHistoryItem q st1)
              = App.history (App.deleteHistoryItem q st)).
  { cbn [st1 App.deleteHistoryItem App.handleSearch_settle App.with_history
           App.history].
    rewrite updateHistory_cons, filter_other_entry.
    fold (others q (App.history st)).
    fold (others q (firstn 19 (others q (App.history st)))).
    rewrite others_fixed by (apply Forall_firstn, others_all).
    apply firstn_all2.
    pose proof (filter_length_le
                  (fun item => negb (HistoryItem.query item =? q)%string)
                  (App.history st)).
    unfold others. lia. }
  split; [exact E|]. intros C. rewrite E.
  cbn [App.deleteHistoryItem App.with_history App.history].
  now apply filter_others, others_of_count.
Qed.

(** A search for a new query on a history of one entry, then its
    deletion. *)
Lemma delete_after_search_witness :
  let st := {| App.query := "C vs D"; App.loadingState := LOADING;
               App.result := None; App.error := None;
               App.history := [entry "A vs B" 5];
               App.savedComparisons := []; App.view := App.home |} in
  App.history
    (App.deleteHistoryItem "C vs D"
       (App.handleSearch_settle "C vs D" (Returned sample_result) 9 st))
  = [entry "A vs B" 5].
Proof.
  intros st.
  refine (proj2 (delete_after_search st "C vs D" sample_result 9 _) _);
    [vm_compute; lia | reflexivity].
Defined.

(* ----------------------------------------------------------------- *)
(** ** The loading state *)

Lemma toggleSave_frame (uuid : string) (now : Z) (st : App.State) :
  App.loadingState (App.toggleSave uuid now st) = App.loadingState st
  /\ App.error (App.toggleSave uuid now st) = App.error st
  /\ App.history (App.toggleSave uuid now st) = App.history st
  /\ App.query (App.toggleSave uuid now st) = App.query st.
Proof.
  unfold App.toggleSave. destruct (App.result st) as [r|]; [|now repeat split].
  destruct (negb _); [now repeat split|].
  destruct (_ >=? 0); now repeat split.
Qed.

Lemma step_consistent (st : App.State) (ev : Session.event) :
  consistent st -> consistent (Session.step st ev).
Proof.
  intros H.
  destruct ev as [sq|fq [r|e] t|u t|sv|i| |x|]; cbn [Session.step].
  - destruct (App.handleSearch_start sq st) as [[fq st1]|] eqn:E;
      [|exact H].
    unfold App.handleSearch_start in E.
    destruct (negb _); [discriminate|]. injection E as _ <-.
    repeat split; simpl; discriminate.
  - repeat split; simpl; discriminate.
  - repeat split; simpl; intros; (discriminate || reflexivity).
  - destruct (toggleSave_frame u t st) as (El & Ee & _).
    pose proof (toggleSave_result u t st) as Er.
    unfold consistent. rewrite El, Ee, Er. exact H.
  - repeat split; simpl; discriminate.
  - exact H.
  - exact H.
  - exact H.
  - repeat split; simpl; discriminate.
Qed.

(** X11: in every state of a session the loading state agrees with what
    there is to show: SUCCESS comes with a result, ERROR with the error
    message, and while LOADING there is neither a result nor an error.
    Every event keeps this, and so does the click on the logo. *)
Theorem loading_state_is_consistent (evs : list Session.event) :
  consistent (Session.run evs Session.initial)
  /\ (forall st ev, consistent st -> consistent (Session.step st ev))
  /\ (forall st, consistent st -> consistent (App.goHome st)).
Proof.
  split; [|split; [exact step_consistent|]].
  - assert (I : consistent Session.initial)
      by (repeat split; simpl; discriminate).
    revert I. generalize Session.initial.
    induction evs as [|ev evs IH]; intros st I; [exact I|].
    simpl. apply IH. now apply step_consistent.
  - intros st _. repeat split; simpl; discriminate.
Qed.

Lemma all_space_not_empty (s : string) :
  all_space s = false -> Gemini.or_else (Some s) "" = s /\ s <> ""%string.
Proof. destruct s; [discriminate|]. now split. Qed.

(** X12: two searches that overlap are settled in the order of their
    answers, with nothing that tells them apart: when the second search
    is answered first and the first one last, the state ends with the query
    of the second search in the field, the result of the first one shown,
    and the query of the first one in front of the history. *)
Theorem searches_settle_in_arrival_order (st : App.State) (a b : string)
    (ra rb : AnalysisResult) (ta tb : Z) :
  all_space a = false ->
  all_space b = false ->
  let st1 :=
    Session.run
      [ Session.SearchStarted (Some a);
        Session.SearchStarted (Some b);
        Session.SearchSettled b (Returned rb) tb;
        Session.SearchSettled a (Returned ra) ta ] st in
  App.query st1 = b
  /\ App.result st1 = Some ra
  /\ App.loadingState st1 = SUCCESS
  /\ nth_error (App.history st1) 0 = Some (entry a ta).
Proof.
  intros Ha Hb st1. unfold st1. cbn [Session.run fold_left Session.step].
  assert (S : forall q s, all_space q = false ->
              App.handleSearch_start (Some q) s
              = Some (q, {| App.query := q; App.loadingState := LOADING;
                            App.result := None; App.error := None;
                            App.history := App.history s;
                            App.savedComparisons := App.savedComparisons s;
                            App.view := App.home |})).
  { intros q s Hq. unfold App.handleSearch_start, App.finalQuery.
    destruct q as [|c q]; [discriminate|]. cbn [Gemini.or_else truthy_string].
    now rewrite trim_truthy, Hq. }
  rewrite (S a st Ha), S by exact Hb. repeat split.
Qed.

(** A slow search for "A vs B" and a quick one for "C vs D". *)
Lemma searches_settle_in_arrival_order_witness :
  let st1 :=
    Session.run
      [ Session.SearchStarted (Some "A vs B");
        Session.SearchStarted (Some "C vs D");
        Session.SearchSettled "C vs D"
          (Returned {| data := JNull; sources := [];
                       rawText := Some "nada"; query := "C vs D";
                       timestamp := Some 20 |}) 21;
        Session.SearchSettled "A vs B" (Returned sample_result) 22 ]
      Session.initial in
  App.query st1 = "C vs D"%string /\ App.result st1 = Some sample_result.
Proof.
  intros st1.
  pose proof (searches_settle_in_arrival_order Session.initial
                "A vs B" "C vs D" sample_result
                {| data := JNull; sources := [];
                   rawText := Some "nada"; query := "C vs D";
                   timestamp := Some 20 |} 22 21 eq_refl eq_refl)
    as (H1 & H2 & _).
  exact (conj H1 H2).
Defined.

(* ----------------------------------------------------------------- *)
(** ** More on the saved comparisons *)

Lemma remove_first_length {A : Type} (f : A -> bool) (l : list A) :
  existsb f l = true ->
  S (List.length (remove_first f l)) = List.length l.
Proof.
  induction l as [|x l IH]; simpl; [discriminate|].
  destruct (f x); simpl; [reflexivity|]. intros H. now rewrite IH.
Qed.

Lemma filter_not_saved (r : AnalysisResult) (l : list SavedComparison) :
  is_saved r l = false ->
  filter (fun item => negb (App.same_result r item)) l = l.
Proof.
  unfold is_saved. induction l as [|x l IH]; simpl; [reflexivity|].
  destruct (App.same_result r x); simpl; [discriminate|].
  intros H. now rewrite IH.
Qed.

(** With unique identities, removing the first match removes every
    match. *)
Lemma remove_first_filter (r : AnalysisResult) (l : list SavedComparison) :
  keys_unique l ->
  remove_first (App.same_result r) l
  = filter (fun item => negb (App.same_result r item)) l.
Proof.
  induction l as [|x l IH]; intros U; [reflexivity|]. simpl.
  destruct (App.same_result r x) eqn:E; simpl.
  - symmetry. apply filter_not_saved. now apply (keys_unique_head r x l).
  - f_equal. apply IH. now apply keys_unique_tail in U.
Qed.

Lemma filter_all_true {A : Type} (f : A -> bool) (l : list A) :
  forallb f l = true -> filter f l = l.
Proof.
  induction l as [|x l IH]; simpl; [reflexivity|].
  intros H. apply andb_true_iff in H as [Hx Hl]. now rewrite Hx, IH.
Qed.

(** X13: saving the current result and then deleting, in the list of
    saved comparisons, the entry with the id just generated gives back the
    list as it was, provided no other saved comparison has that id. *)
Theorem delete_undoes_save (st : App.State) (r : AnalysisResult)
    (uuid : string) (now : Z) :
  App.result st = Some r ->
  truthy (data r) = true ->
  is_saved r (App.savedComparisons st) = false ->
  forallb (fun item => negb (id item =? uuid)%string)
          (App.savedComparisons st) = true ->
  let st1 := App.toggleSave uuid now st in
  map id (App.savedComparisons st1)
  = uuid :: map id (App.savedComparisons st)
  /\ App.isCurrentResultSaved st1 = true
  /\ App.savedComparisons (App.deleteSaved uuid st1)
     = App.savedComparisons st
  /\ App.isCurrentResultSaved (App.deleteSaved uuid st1) = false.
Proof.
  intros Hr Ht Hs Hf st1.
  assert (E1 : App.savedComparisons st1
               = {| base := r; id := uuid; savedAt := now |}
                   :: App.savedComparisons st).
  { unfold st1. now rewrite (toggleSave_saved uuid now st r Hr Ht), Hs. }
  assert (R1 : App.result st1 = Some r)
    by (unfold st1; now rewrite toggleSave_result).
  assert (E2 : App.savedComparisons (App.deleteSaved uuid st1)
               = App.savedComparisons st).
  { cbn [App.deleteSaved App.with_saved App.savedComparisons]. rewrite E1.
    simpl. rewrite String.eqb_refl. simpl. now apply filter_all_true. }
  split; [now rewrite E1|]. split.
  { unfold App.isCurrentResultSaved. rewrite R1, E1. simpl.
    replace (App.same_result r _) with true; [reflexivity|].
    symmetry. now apply same_result_true. }
  split; [exact E2|].
  unfold App.isCurrentResultSaved.
  cbn [App.deleteSaved App.with_saved App.result]. rewrite R1.
  change (is_saved r (App.savedComparisons (App.deleteSaved uuid st1)) = false).
  now rewrite E2.
Qed.

(** The structured sample result, saved on an empty list and deleted. *)
Lemma delete_undoes_save_witness :
  let st := {| App.query := "A vs B"; App.loadingState := SUCCESS;
               App.result := Some sample_result; App.error := None;
               App.history := [entry "A vs B" 11];
               App.savedComparisons := []; App.view := App.home |} in
  App.savedComparisons
    (App.deleteSaved "id-9" (App.toggleSave "id-9" 12 st)) = [].
Proof.
  intros st.
  exact (proj1 (proj2 (proj2 (delete_undoes_save st sample_result "id-9" 12
                                eq_refl eq_refl eq_refl eq_refl)))).
Defined.

(** X14: opening a saved comparison of the list shows it as saved, in the
    state SUCCESS and without touching the history; un-saving it then
    removes it from the list and nothing else: the list gets shorter by
    one, loses every entry of that identity and keeps the others in their
    order.  The list is one with unique identities, as every list of a
    session is, and the comparison has a record. *)
Theorem unsave_loaded_comparison (st : App.State) (saved : SavedComparison)
    (uuid : string) (now : Z) :
  In saved (App.savedComparisons st) ->
  keys_unique (App.savedComparisons st) ->
  truthy (data (base saved)) = true ->
  let st1 := App.loadSaved saved st in
  let st2 := App.toggleSave uuid now st1 in
  App.loadingState st1 = SUCCESS
  /\ App.result st1 = Some (base saved)
  /\ App.history st1 = App.history st
  /\ App.isCurrentResultSaved st1 = true
  /\ App.savedComparisons st2
     = filter (fun item => negb (App.same_result (base saved) item))
              (App.savedComparisons st)
  /\ ~ In saved (App.savedComparisons st2)
  /\ S (List.length (App.savedComparisons st2))
     = List.length (App.savedComparisons st)
  /\ App.isCurrentResultSaved st2 = false.
Proof.
  intros Hin U Ht st1 st2.
  assert (Hs : is_saved (base saved) (App.savedComparisons st) = true).
  { apply existsb_exists. exists saved. split; [exact Hin|].
    now apply same_result_true. }
  assert (E2 : App.savedComparisons st2
               = remove_first (App.same_result (base saved))
                              (App.savedComparisons st)).
  { unfold st2. rewrite (toggleSave_saved uuid now st1 (base saved) eq_refl Ht).
    cbn [st1 App.loadSaved App.savedComparisons]. now rewrite Hs. }
  assert (N : is_saved (base saved) (App.savedComparisons st2) = false)
    by (rewrite E2; now apply remove_first_not_saved).
  repeat split.
  - exact Hs.
  - rewrite E2. now apply remove_first_filter.
  - intros H. assert (is_saved (base saved) (App.savedComparisons st2) = true).
    { apply existsb_exists. exists saved. split; [exact H|].
      now apply same_result_true. }
    congruence.
  - rewrite E2. now apply remove_first_length.
  - unfold App.isCurrentResultSaved, st2. rewrite toggleSave_result.
    exact N.
Qed.

(** The sample session, then the saved comparison opened and un-saved. *)
Lemma unsave_loaded_comparison_witness :
  let st := Session.run sample_session Session.initial in
  let saved := {| base := sample_result; id := "id-0"; savedAt := 12 |} in
  App.savedComparisons (App.toggleSave "id-1" 13 (App.loadSaved saved st))
  = [].
Proof.
  intros st saved.
  assert (U : keys_unique (App.savedComparisons st))
    by (apply run_unique; constructor).
  destruct (unsave_loaded_comparison st saved "id-1" 13
              (or_introl eq_refl) U eq_refl) as (_ & _ & _ & _ & H & _).
  rewrite H. reflexivity.
Defined.

(* ----------------------------------------------------------------- *)
(** ** More on the statistics *)

Lemma count_mono {A : Type} (f g : A -> bool) (l : list A) :
  (forall x, f x = true -> g x = true) -> App.count f l <= App.count g l.
Proof.
  intros H. unfold App.count. apply inj_le.
  induction l as [|x l IH]; simpl; [lia|].
  destruct (f x) eqn:E; [rewrite (H x E); simpl; lia|].
  destruct (g x); simpl; lia.
Qed.

Lemma count_disjoint {A : Type} (f g : A -> bool) (l : list A) :
  (forall x, f x = true -> g x = false) ->
  App.count f l + App.count g l <= Z.of_nat (List.length l).
Proof.
  intros H. unfold App.count.
  induction l as [|x l IH]; cbn [filter List.length]; [lia|].
  destruct (f x) eqn:E; [rewrite (H x E); cbn [List.length]; lia|].
  destruct (g x); cbn [List.length]; lia.
Qed.

(** X15: a longer period never counts less: the searches and the saved
    comparisons counted for 24 hours are among those counted for 7 days,
    and those among the ones counted for 30 days.  The searches of a
    period and those of the period before it are different entries:
    together they are at most as many as the history has. *)
Theorem stats_grow_with_period (history : list HistoryItem.t)
    (savedComparisons : list SavedComparison) (now : Z) :
  let stats p := App.calculateRealStats history savedComparisons p now in
  App.searches (stats App.P24h) <= App.searches (stats App.P7d)
  /\ App.searches (stats App.P7d) <= App.searches (stats App.P30d)
  /\ App.savedCount (stats App.P24h) <= App.savedCount (stats App.P7d)
  /\ App.savedCount (stats App.P7d) <= App.savedCount (stats App.P30d)
  /\ (forall p,
        0 <= App.searches (stats p)
        /\ 0 <= App.savedCount (stats p) <= Z.of_nat (List.length savedComparisons)
        /\ App.searches (stats p)
           + App.previousPeriodCount history (App.duration p) now
           <= Z.of_nat (List.length history)).
Proof.
  intros stats. unfold stats, App.calculateRealStats.
  cbn [App.searches App.savedCount]. unfold App.periodCount.
  repeat split; try (apply count_mono; intros x; cbn [App.duration]; lia);
    try apply count_bounds.
  unfold App.previousPeriodCount. apply count_disjoint. intros x. lia.
Qed.

Lemma spec_trend_negative (current previous : Z) :
  0 <= current -> 0 <= previous <= 20 ->
  (spec_trend current previous < 0 <-> current < previous).
Proof.
  intros Hc Hp. unfold spec_trend, round_half_up.
  destruct (Z.eqb_spec previous 0) as [->|N].
  - destruct (current >? 0); lia.
  - pose proof (Z.div_mod (2 * ((current - previous) * 100) + previous)
                          (2 * previous)) as D.
    pose proof (Z.mod_pos_bound (2 * ((current - previous) * 100) + previous)
                                (2 * previous)) as B.
    nia.
Qed.

Lemma signed_percent_prefix (z : Z) :
  String.prefix "-" (signed_percent z) = (z <? 0)
  /\ String.prefix "+" (signed_percent z) = negb (z <? 0).
Proof.
  assert (E : forall s, String.prefix "" s = true) by (now intros [|c s]).
  destruct z; split; try reflexivity; unfold signed_percent; simpl;
    apply E.
Qed.

(** X16: on a history of at most 20 entries the trend starts with a minus
    sign exactly when the period has fewer searches than the period
    before, and with a plus sign otherwise; it is "-100%" when the period
    has none and the period before has some, and "+0%" when both have as
    many. *)
Theorem trend_sign (history : list HistoryItem.t)
    (savedComparisons : list SavedComparison)
    (statsPeriod : App.StatsPeriod) (now : Z) :
  (List.length history <= 20)%nat ->
  let current := App.periodCount history (App.duration statsPeriod) now in
  let previous :=
    App.previousPeriodCount history (App.duration statsPeriod) now in
  let trend :=
    App.trend
      (App.calculateRealStats history savedComparisons statsPeriod now) in
  (String.prefix "-" trend = true <-> current < previous)
  /\ (String.prefix "+" trend = true <-> previous <= current)
  /\ (current = 0 -> 0 < previous -> trend = "-100%"%string)
  /\ (current = previous -> trend = "+0%"%string).
Proof.
  intros L current previous trend.
  pose proof (count_bounds
                (fun h => now - HistoryItem.timestamp h
                          <? App.duration statsPeriod) history) as Bc.
  pose proof (count_bounds
                (fun h => (now - HistoryItem.timestamp h
                           >=? App.duration statsPeriod)
                          && (now - HistoryItem.timestamp h
                              <? App.duration statsPeriod * 2))
                history) as Bp.
  fold (App.periodCount history (App.duration statsPeriod) now) in Bc.
  fold (App.previousPeriodCount history (App.duration statsPeriod) now) in Bp.
  fold current in Bc. fold previous in Bp.
  assert (E : trend = signed_percent (spec_trend current previous)).
  { unfold trend, App.calculateRealStats. cbn [App.trend].
    fold current previous. rewrite trendVal_exact by lia.
    apply trendStr_signed. }
  pose proof (spec_trend_negative current previous) as N.
  destruct (signed_percent_prefix (spec_trend current previous)) as [P1 P2].
  rewrite E, P1, P2. rewrite negb_true_iff, Z.ltb_lt, Z.ltb_ge.
  split; [apply N; lia|]. split; [lia|]. split.
  - intros -> Hp. unfold spec_trend, round_half_up.
    destruct (Z.eqb_spec previous 0); [lia|].
    replace (2 * ((0 - previous) * 100) + previous)
      with (-100 * (2 * previous) + previous) by lia.
    rewrite Z.div_add_l by lia. rewrite Z.div_small by lia. reflexivity.
  - intros ->. unfold spec_trend, round_half_up.
    destruct (Z.eqb_spec previous 0) as [->|Hp]; [reflexivity|].
    replace (2 * ((previous - previous) * 100) + previous)
      with previous by lia.
    rewrite Z.div_small by lia. reflexivity.
Qed.

(** The sample history: two searches now, four before. *)
Lemma trend_sign_witness :
  String.prefix "-"
    (App.trend
       (App.calculateRealStats sample_history [] App.P24h 200000000))
  = true.
Proof.
  apply (proj1 (trend_sign sample_history [] App.P24h 200000000
                  ltac:(simpl; lia))).
  reflexivity.
Defined.

(* ----------------------------------------------------------------- *)
(** ** Suggestions *)

Lemma Set_of_In (x : string) (arr : list string) :
  In x (Set_of arr) <-> In x arr.
Proof.
  induction arr as [|y arr IH]; simpl; [tauto|].
  rewrite filter_In, IH. split.
  - intros [H|[H _]]; [now left | now right].
  - intros [H|H]; [now left|].
    destruct (String.eqb_spec x y) as [->|N]; [now left|].
    right. split; [exact H|]. now destruct (String.eqb_spec x y).
Qed.

Lemma Set_of_NoDup (arr : list string) : NoDup (Set_of arr).
Proof.
  induction arr as [|y arr IH]; simpl; constructor.
  - intros H. apply filter_In in H as [_ H].
    now rewrite String.eqb_refl in H.
  - now apply NoDup_filter.
Qed.

(** X17: at most five suggestions are offered, no suggestion twice; each
    one is a query of the history or one of the preset examples, contains
    what was typed when case is ignored, and is not what was typed itself.
    The list is shown exactly when it is not empty.  When only white space
    was typed the suggestions are emptied, and whether the list is shown
    stays as it was. *)
Theorem suggestions_are_relevant (history : list HistoryItem.t)
    (inputValue : string) (sg : App.Suggestions) :
  let sg1 := App.updateSuggestions history inputValue sg in
  (List.length (App.suggestions sg1) <= 5)%nat
  /\ NoDup (App.suggestions sg1)
  /\ Forall (fun item =>
               (In item (map HistoryItem.query history)
                \/ In item App.presetSuggestions)
               /\ includes (toLowerCase item) (toLowerCase inputValue) = true
               /\ toLowerCase item <> toLowerCase inputValue)
            (App.suggestions sg1)
  /\ (all_space inputValue = false ->
      App.showSuggestions sg1
      = match App.suggestions sg1 with [] => false | _ => true end)
  /\ (all_space inputValue = true ->
      App.suggestions sg1 = []
      /\ App.showSuggestions sg1 = App.showSuggestions sg).
Proof.
  intros sg1. unfold sg1, App.updateSuggestions.
  rewrite trim_truthy, negb_involutive.
  destruct (all_space inputValue).
  - cbn [App.suggestions App.showSuggestions].
    repeat split; try constructor; try discriminate. simpl. lia.
  - cbn [App.suggestions App.showSuggestions].
    set (keep := fun item : string =>
                   includes (toLowerCase item) (toLowerCase inputValue)
                   && negb (toLowerCase item =? toLowerCase inputValue)%string).
    set (combined := Set_of (map HistoryItem.query history
                             ++ App.presetSuggestions)).
    repeat split; try discriminate.
    + apply firstn_le_length.
    + rewrite <- (map_id (firstn 5 (filter keep combined))).
      apply NoDup_map_firstn. rewrite map_id.
      apply NoDup_filter, Set_of_NoDup.
    + apply Forall_firstn, Forall_forall. intros item H.
      apply filter_In in H as [Hin Hk]. unfold keep in Hk.
      apply andb_true_iff in Hk as [Hi Hn].
      split; [|split; [exact Hi|]].
      * apply Set_of_In, in_app_or in Hin. exact Hin.
      * apply negb_true_iff in Hn. now apply String.eqb_neq.
    + now destruct (firstn 5 (filter keep combined)).
Qed.

(* ----------------------------------------------------------------- *)
(** ** The persona selected when a result is shown *)

Lemma find_existsb {A : Type} (f : A -> bool) (l : list A) :
  existsb f l = true -> exists x, find f l = Some x.
Proof.
  induction l as [|y l IH]; simpl; [discriminate|].
  destruct (f y); [now exists y | exact IH].
Qed.

Lemma personaToSelect_id (savedPersona : option string)
    (data : option ComparisonResults.PersonaData)
    (p : ComparisonResults.PersonaDefinition) :
  ComparisonResults.personaToSelect savedPersona data = Some p ->
  exists d,
    data = Some d
    /\ In p (ComparisonResults.personas d)
    /\ ComparisonResults.personaIdToSelect savedPersona data
       = Some (ComparisonResults.id p).
Proof.
  unfold ComparisonResults.personaToSelect.
  destruct (ComparisonResults.personaIdToSelect savedPersona data)
    as [wanted|]; [|discriminate].
  destruct data as [d|]; [|discriminate].
  destruct (truthy_string wanted); [|discriminate].
  intros H. apply find_some in H as [Hin Hid].
  apply String.eqb_eq in Hid. exists d. now rewrite Hid.
Qed.

(** X18: when a result is shown, the persona selected by the effect is
    always one of the personas of the record: the stored preference when
    it is the id of one, otherwise the suggestion of the record when that
    is the id of one; otherwise, and when the storage cannot be read or
    there is no record, nothing changes and no request is sent.  A request
    is sent only when no persona result is there yet; it is for the
    persona selected, which becomes the stored preference. *)
Theorem persona_preselection (savedPersona : option string)
    (data : ComparisonResults.PersonaData) (stored : bool)
    (st : ComparisonResults.State) :
  let out :=
    ComparisonResults.loadPersona (Returned savedPersona) (Some data)
      stored st in
  let st1 := fst out in
  (st1 = st
   \/ exists p, In p (ComparisonResults.personas data)
                /\ ComparisonResults.selectedPersona st1
                   = Some (ComparisonResults.id p))
  /\ (forall saved c,
        savedPersona = Some (String c saved) ->
        is_persona data (String c saved) = true ->
        ComparisonResults.selectedPersona st1 = Some (String c saved))
  /\ (match savedPersona with
      | Some saved => truthy_string saved && is_persona data saved
      | None => false
      end = false ->
      (truthy_string (ComparisonResults.suggestedPersona data)
       && is_persona data (ComparisonResults.suggestedPersona data) = true ->
       ComparisonResults.selectedPersona st1
       = Some (ComparisonResults.suggestedPersona data))
      /\ (truthy_string (ComparisonResults.suggestedPersona data)
          && is_persona data (ComparisonResults.suggestedPersona data)
          = false ->
          out = (st, None)))
  /\ (ComparisonResults.has_result st = true ->
      snd out = None
      /\ ComparisonResults.personaResult st1
         = ComparisonResults.personaResult st
      /\ ComparisonResults.loadingPersona st1
         = ComparisonResults.loadingPersona st
      /\ ComparisonResults.preferredPersonaId st1
         = ComparisonResults.preferredPersonaId st)
  /\ (forall personaLabel personaId,
        snd out = Some (personaLabel, personaId) ->
        ComparisonResults.selectedPersona st1 = Some personaId
        /\ ComparisonResults.loadingPersona st1 = true
        /\ ComparisonResults.personaResult st1 = None
        /\ (stored = true ->
            ComparisonResults.preferredPersonaId st1 = Some personaId)
        /\ exists p, In p (ComparisonResults.personas data)
                     /\ ComparisonResults.id p = personaId
                     /\ ComparisonResults.label p = personaLabel)
  /\ (forall e d,
        ComparisonResults.loadPersona (Threw e) d stored st = (st, None))
  /\ (forall g, ComparisonResults.loadPersona g None stored st = (st, None)).
Proof.
  intros out st1.
  assert (Sel : forall p,
             ComparisonResults.personaToSelect savedPersona (Some data)
             = Some p ->
             ComparisonResults.selectedPersona st1
             = Some (ComparisonResults.id p)
             /\ In p (ComparisonResults.personas data)).
  { intros p Hp. destruct (personaToSelect_id _ _ _ Hp) as (d & [= <-] & Hin & Hid).
    split; [|exact Hin].
    unfold st1, out, ComparisonResults.loadPersona. rewrite Hp, Hid.
    now destruct (truthy_string _ && negb _). }
  assert (Non : ComparisonResults.personaToSelect savedPersona (Some data)
                = None -> out = (st, None)).
  { intros Hp. unfold out, ComparisonResults.loadPersona. now rewrite Hp. }
  assert (Want : forall w,
             ComparisonResults.personaIdToSelect savedPersona (Some data)
             = Some w ->
             truthy_string w = true ->
             (is_persona data w = true ->
              ComparisonResults.selectedPersona st1 = Some w)
             /\ (is_persona data w = false -> out = (st, None))).
  { intros w Hw Tw. unfold is_persona. split; intros Hi.
    - destruct (find_existsb _ _ Hi) as [p Hp].
      assert (Hp1 : ComparisonResults.personaToSelect savedPersona (Some data)
                    = Some p).
      { unfold ComparisonResults.personaToSelect. now rewrite Hw, Tw. }
      destruct (Sel p Hp1) as [-> _]. f_equal.
      apply find_some in Hp as [_ Hp]. now apply String.eqb_eq in Hp.
    - apply Non. unfold ComparisonResults.personaToSelect. rewrite Hw, Tw.
      destruct (find _ _) as [p|] eqn:Hp; [|reflexivity].
      apply find_some in Hp as [Hin Hp].
      assert (existsb (fun p => (ComparisonResults.id p =? w)%string)
                      (ComparisonResults.personas data) = true)
        by (apply existsb_exists; now exists p).
      congruence. }
  split.
  { destruct (ComparisonResults.personaToSelect savedPersona (Some data))
      as [p|] eqn:Hp.
    - right. exists p. destruct (Sel p eq_refl) as [H1 H2]. now split.
    - left. unfold st1. now rewrite Non. }
  split.
  { intros saved c -> Hi. apply (Want (String c saved)); try reflexivity;
      [|exact Hi].
    unfold ComparisonResults.personaIdToSelect. cbn [truthy_string andb].
    unfold is_persona in Hi. now rewrite Hi. }
  split.
  { intros Hpref.
    assert (Hw : ComparisonResults.personaIdToSelect savedPersona (Some data)
                 = if truthy_string (ComparisonResults.suggestedPersona data)
                   then Some (ComparisonResults.suggestedPersona data)
                   else None).
    { unfold ComparisonResults.personaIdToSelect.
      destruct savedPersona as [saved|]; [|reflexivity].
      unfold is_persona in Hpref. now rewrite Hpref. }
    destruct (truthy_string (ComparisonResults.suggestedPersona data)) eqn:Ts;
      cbn [andb].
    - destruct (Want _ Hw Ts) as [W1 W2]. now split.
    - split; [discriminate|]. intros _. apply Non.
      unfold ComparisonResults.personaToSelect. now rewrite Hw. }
  split.
  { intros Hr. unfold st1, out, ComparisonResults.loadPersona.
    destruct (ComparisonResults.personaToSelect savedPersona (Some data))
      as [p|]; [|now repeat split].
    destruct (ComparisonResults.personaIdToSelect savedPersona (Some data));
      [|now repeat split].
    rewrite Hr, andb_false_r. now repeat split. }
  split.
  { intros personaLabel personaId. unfold st1, out, ComparisonResults.loadPersona.
    destruct (ComparisonResults.personaToSelect savedPersona (Some data))
      as [p|] eqn:Hp; [|discriminate].
    destruct (personaToSelect_id _ _ _ Hp) as (d & [= <-] & Hin & Hid).
    rewrite Hid. destruct (truthy_string _ && negb _); [|discriminate].
    cbn [snd fst]. intros [= <- <-]. repeat split.
    - now intros ->.
    - now exists p. }
  split; [reflexivity|].
  intros [sp|e]; [|reflexivity]. unfold ComparisonResults.loadPersona.
  replace (ComparisonResults.personaToSelect sp None) with
    (@None ComparisonResults.PersonaDefinition); [reflexivity|].
  unfold ComparisonResults.personaToSelect.
  now destruct (ComparisonResults.personaIdToSelect sp None).
Qed.

(** No preference is stored: the suggestion of the record is selected,
    requested and stored.  With the preference "p1" stored, "p1" is
    selected instead. *)
Lemma persona_preselection_witness :
  let fresh := ComparisonResults.initial None in
  fst (ComparisonResults.loadPersona (Returned None) (Some sample_personas)
         true fresh)
  = {| ComparisonResults.selectedPersona := Some "p2";
       ComparisonResults.personaResult := None;
       ComparisonResults.loadingPersona := true;
       ComparisonResults.preferredPersonaId := Some "p2" |}
  /\ ComparisonResults.selectedPersona
       (fst (ComparisonResults.loadPersona (Returned (Some "p1"))
               (Some sample_personas) true
               (ComparisonResults.initial (Some "p1"))))
     = Some "p1"%string.
Proof.
  split; [reflexivity|].
  exact (proj1 (proj2 (persona_preselection (Some "p1") sample_personas true
                         (ComparisonResults.initial (Some "p1"))))
           "1" "p"%char eq_refl eq_refl).
Defined.

(* ----------------------------------------------------------------- *)
(** ** Searches that are answered *)



(* ----------------------------------------------------------------- *)
(** ** What gets saved *)

Lemma remove_first_Forall {A : Type} (P : A -> Prop) (f : A -> bool)
    (l : list A) :
  Forall P l -> Forall P (remove_first f l).
Proof.
  induction 1 as [|x l Hx Hl IH]; simpl; [constructor|].
  destruct (f x); [exact Hl | now constructor].
Qed.

Lemma filter_Forall {A : Type} (P : A -> Prop) (f : A -> bool)
    (l : list A) :
  Forall P l -> Forall P (filter f l).
Proof.
  intros H. apply Forall_forall. intros x Hx.
  apply filter_In in Hx as [Hx _]. revert x Hx. now apply Forall_forall.
Qed.

(** X20: in every state of a session each saved comparison has a record:
    a result that came without one (raw text) is never in the list. *)
Theorem saved_comparisons_have_records (evs : list Session.event) :
  Forall (fun item => truthy (data (base item)) = true)
         (App.savedComparisons (Session.run evs Session.initial)).
Proof.
  assert (I : Forall (fun item => truthy (data (base item)) = true)
                     (App.savedComparisons Session.initial))
    by constructor.
  revert I. generalize Session.initial.
  induction evs as [|ev evs IH]; intros st I; [exact I|].
  simpl. apply IH.
  destruct ev as [sq|fq [r|e] t|u t|sv|i| |x|]; cbn [Session.step];
    try exact I.
  - destruct (App.handleSearch_start sq st) as [[fq st1]|] eqn:E; [|exact I].
    unfold App.handleSearch_start in E.
    destruct (negb _); [discriminate|]. now injection E as _ <-.
  - destruct (App.result st) as [r|] eqn:Hr;
      [|unfold App.toggleSave; now rewrite Hr].
    destruct (truthy (data r)) eqn:Ht;
      [|now rewrite (toggleSave_falsy u t st r Hr Ht)].
    rewrite (toggleSave_saved u t st r Hr Ht).
    destruct (is_saved r (App.savedComparisons st)).
    + now apply remove_first_Forall.
    + now constructor.
  - now apply filter_Forall.
Qed.
